(** * pex.py: assembling a PEX archive from a manifest

    A shallow embedding of [src/com/facebook/buck/python/pex.py].

    - [PosixPath]: the string functions of [os.path] and [str] the script
      calls ([dirname], [join], [split], [sep.join]), on [string].
    - [dereference_symlinks]: the [while os.path.islink(src)] loop, with
      fuel for the iterations of the loop and as a big-step relation.
    - [main]: the script's [main()], in a state-and-exception monad over a
      trace of the calls made to the outside world (optparse, json,
      tempfile, the PEX library, shutil).
    - [optparse_args] and [main_argv]: [parser.parse_args()] on the
      arguments of the command line, and [main()] as a whole, from them. *)

From Stdlib Require Import Ascii String.
From stdpp Require Import gmap strings list sorting.

Local Open Scope string_scope.
Local Open Scope list_scope.

(** ** POSIX path and string primitives *)

Module PosixPath.

(** [os.sep] *)
Definition sep : ascii := "/"%char.

Definition is_sep (c : ascii) : bool := Ascii.eqb c sep.

(** [s.startswith('/')], which is also [os.path.isabs(s)]. *)
Definition isabs (s : string) : bool :=
  match s with
  | String c _ => is_sep c
  | EmptyString => false
  end.

(** [s.endswith('/')] *)
Fixpoint endswith_sep (s : string) : bool :=
  match s with
  | EmptyString => false
  | String c EmptyString => is_sep c
  | String _ r => endswith_sep r
  end.

(** ['/' in s] *)
Fixpoint has_sep (s : string) : bool :=
  match s with
  | EmptyString => false
  | String c r => is_sep c || has_sep r
  end.

(** [p[:p.rfind('/') + 1]]: the characters up to and including the last
    separator (nothing when there is none). *)
Fixpoint upto_last_sep (p : string) : string :=
  match p with
  | EmptyString => EmptyString
  | String c r => if is_sep c || has_sep r then String c (upto_last_sep r) else EmptyString
  end.

(** [s == '/' * len(s)] *)
Fixpoint all_sep (s : string) : bool :=
  match s with
  | EmptyString => true
  | String c r => is_sep c && all_sep r
  end.

(** [s.rstrip('/')] *)
Fixpoint rstrip_sep (s : string) : string :=
  match s with
  | EmptyString => EmptyString
  | String c r =>
      match rstrip_sep r with
      | EmptyString => if is_sep c then EmptyString else String c EmptyString
      | r' => String c r'
      end
  end.

(** [posixpath.dirname]:
<<
    i = p.rfind('/') + 1
    head = p[:i]
    if head and head != '/'*len(head):
        head = head.rstrip('/')
    return head
>> *)
Definition dirname (p : string) : string :=
  let head := upto_last_sep p in
  if negb (String.eqb head "") && negb (all_sep head) then rstrip_sep head else head.

(** [posixpath.join(a, b)] with one component:
<<
    if b.startswith('/'):   path = b
    elif path == '' or path.endswith('/'):  path += b
    else:  path += '/' + b
>> *)
Definition join (a b : string) : string :=
  if isabs b then b
  else if String.eqb a "" || endswith_sep a then a +:+ b
  else a +:+ String sep b.

(** [s.split('/')] *)
Fixpoint split (s : string) : list string :=
  match s with
  | EmptyString => [EmptyString]
  | String c r =>
      if is_sep c then EmptyString :: split r
      else match split r with
           | h :: t => String c h :: t
           | [] => [String c EmptyString]
           end
  end.

(** ['/'.join(l)] *)
Fixpoint sep_join (l : list string) : string :=
  match l with
  | [] => EmptyString
  | [x] => x
  | x :: r => x +:+ String sep (sep_join r)
  end.

(** [l[:-n]] for a positive [n] *)
Definition drop_last {A} (n : nat) (l : list A) : list A :=
  take (length l - n) l.

End PosixPath.

Import PosixPath.

(** ** The repository root

    [BUCK_ROOT = os.sep.join(__file__.split(os.sep)[:-6])] *)

Definition BUCK_ROOT (file : string) : string :=
  sep_join (drop_last 6 (split file)).

Definition setuptools_dir (file : string) : string :=
  join (BUCK_ROOT file) "third-party/py/setuptools".

(** ** The file system, as the script observes it

    [symlink_target p] is [Some t] when [os.path.islink(p)] holds, and then
    [t] is [os.readlink(p)].  The kernel walks the directories of [p]; the
    script only ever asks about whole path strings, so the table is indexed
    by them.  [file_content p] is the content of the regular file that
    opening (or hard-linking) [p] reaches, when there is one. *)

Record FileSystem := {
  symlink_target : string -> option string;
  file_content : string -> option (list Byte.byte);
}.

Definition islink (fs : FileSystem) (p : string) : bool :=
  match symlink_target fs p with Some _ => true | None => false end.

(** ** [dereference_symlinks]
<<
    while os.path.islink(src):
        src = os.path.join(os.path.dirname(src), os.readlink(src))
    return src
>>
    [fuel] bounds the iterations of the loop; [None] is a run that has not
    left the loop after [fuel] iterations. *)

Fixpoint dereference_symlinks (fs : FileSystem) (fuel : nat) (src : string) : option string :=
  match symlink_target fs src with
  | None => Some src
  | Some target =>
      match fuel with
      | O => None
      | S fuel' => dereference_symlinks fs fuel' (join (dirname src) target)
      end
  end.

(** The loop as a big-step relation: [derefs fs src r] when the call on
    [src] returns [r]. *)
Inductive derefs (fs : FileSystem) : string -> string -> Prop :=
  | derefs_return src :
      symlink_target fs src = None -> derefs fs src src
  | derefs_iter src target r :
      symlink_target fs src = Some target ->
      derefs fs (join (dirname src) target) r ->
      derefs fs src r.

(** The call returns: some number of iterations leaves the loop. *)
Definition terminates (fs : FileSystem) (src : string) : Prop :=
  exists fuel r, dereference_symlinks fs fuel src = Some r.

(** *** The specification's reading of the loop

    One hop replaces the final component by the link's target, joined
    against the directory that contains the link. *)
Definition replace_leaf (p target : string) : string :=
  join (dirname p) target.

(** [leaf_chain fs n p q]: [n] hops through leaf links lead from [p] to [q]. *)
Inductive leaf_chain (fs : FileSystem) : nat -> string -> string -> Prop :=
  | leaf_chain_O p : leaf_chain fs 0 p p
  | leaf_chain_S n p target q :
      symlink_target fs p = Some target ->
      leaf_chain fs n (replace_leaf p target) q ->
      leaf_chain fs (S n) p q.

(** A chain that comes back to its start after at least one hop. *)
Definition cyclic (fs : FileSystem) (p : string) : Prop :=
  exists n, leaf_chain fs (S n) p p.

(** ** The PEX library, as [main] uses it *)

(** [twitter.common.python.interpreter.PythonInterpreter]: the executable,
    its identity, and the distributions it is declared to provide, keyed by
    (name, version). *)
Record PythonInterpreter := {
  binary : string;
  identity : string;
  extras : gmap (string * string) string;
}.

(** [pex_builder.info] *)
Record PexInfo := {
  zip_safe : bool;
  entry_point : option string;
}.

Inductive category := Source | Resource.

Record ResolvedEntry := {
  entry_dst : string;
  entry_src : string;
  entry_category : category;
}.

(** [twitter.common.python.pex_builder.PEXBuilder]: the scratch directory,
    the interpreter, [info], the entries registered so far (oldest first)
    and the files placed under the scratch directory, by destination. *)
Record PEXBuilder := {
  path : string;
  interpreter : PythonInterpreter;
  info : PexInfo;
  entries : list ResolvedEntry;
  chroot : gmap string (list Byte.byte);
}.

(** The sealed archive: its files by destination path, and its metadata. *)
Record Archive := {
  archive_files : gmap string (list Byte.byte);
  archive_info : PexInfo;
  archive_identity : string;
}.

(** [pex_builder.info.zip_safe = v] and [pex_builder.info.entry_point = v] *)
Definition set_zip_safe (v : bool) (b : PEXBuilder) : PEXBuilder :=
  {| path := path b; interpreter := interpreter b;
     info := {| zip_safe := v; entry_point := entry_point (info b) |};
     entries := entries b; chroot := chroot b |}.

Definition set_entry_point (v : string) (b : PEXBuilder) : PEXBuilder :=
  {| path := path b; interpreter := interpreter b;
     info := {| zip_safe := zip_safe (info b); entry_point := Some v |};
     entries := entries b; chroot := chroot b |}.

(** Modelled from the spec: the destination check of [add_source] and
    [add_resource] (the PEX library is not among the sources): a
    destination escapes the workspace root when, read component by
    component, a [..] climbs above the directory it started in. *)
Fixpoint climbs_out (depth : nat) (components : list string) : bool :=
  match components with
  | [] => false
  | c :: rest =>
      if String.eqb c ".." then
        match depth with
        | O => true
        | S d => climbs_out d rest
        end
      else if String.eqb c "" || String.eqb c "." then climbs_out depth rest
      else climbs_out (S depth) rest
  end.

Definition escapes_root (dst : string) : bool := climbs_out 0 (split dst).

(** ** The script's inputs and the world it runs in *)

(** The manifest read from standard input: the value under each of the two
    keys, when the key is there, as the pairs [iteritems()] yields, in the
    order it yields them. *)
Record Manifest := {
  modules : option (list (string * string));
  resources : option (list (string * string));
}.

(** What optparse decoded from the command line. *)
Record CommandLine := {
  given_entry_point : option string;
  given_python : option string;
  args : list string;
}.

(** [options], after the defaults. *)
Record Options := {
  options_entry_point : string;
  options_python : string;
}.

Record Env := {
  fs : FileSystem;
  sys_executable : string;
  (** [__file__] *)
  script_file : string;
  (** [json.load(sys.stdin)]; [None] when it raises *)
  stdin_json : option Manifest;
  (** [tempfile.mkdtemp()]; [None] when it raises *)
  mkdtemp_name : option string;
  (** [PythonInterpreter.from_binary]; [None] when it raises *)
  introspect : string -> option PythonInterpreter;
  (** [info] of a fresh [PEXBuilder] *)
  default_info : PexInfo;
  (** whether sealing the archive fails *)
  seal_fails : bool;
  (** whether removing the scratch directory fails *)
  rmtree_fails : bool;
}.

Inductive exn :=
  | SystemExit (status : Z)
  | ValueError
  | KeyError (key : string)
  | OSError
  | InterpreterResolutionError (python : string)
  | EscapingDestination (dst : string)
  | MissingSource (src : string)
  | BuildError.

(** The calls [main] makes to the outside, in the order it makes them. *)
Inductive event :=
  | ParserError (msg : string)
  | JsonLoad
  | Mkdtemp
  | FromBinary (python : string)
  | NewPEXBuilder (path : string) (interp : PythonInterpreter)
  | AddSource (src dst : string)
  | AddResource (src dst : string)
  | Build (b : PEXBuilder) (output : string)
  | Rmtree (dir : string) (ignore_errors : bool).

Record State := {
  trace : list event;
  (** the scratch directories that exist *)
  scratch_dirs : gset string;
  (** the archives written, by output path *)
  written : gmap string Archive;
}.

Definition initial : State :=
  {| trace := []; scratch_dirs := ∅; written := ∅ |}.

(** ** The monad: state, exceptions, and a loop that has not returned *)

Inductive result (A : Type) :=
  | Returned (a : A)
  | Raised (e : exn)
  | Looping.
Arguments Returned {A} a.
Arguments Raised {A} e.
Arguments Looping {A}.

Definition M (A : Type) : Type := State -> State * result A.

Definition ret {A} (a : A) : M A := fun s => (s, Returned a).

Definition raise {A} (e : exn) : M A := fun s => (s, Raised e).

Definition bind {A B} (c : M A) (k : A -> M B) : M B :=
  fun s =>
    match c s with
    | (s', Returned a) => k a s'
    | (s', Raised e) => (s', Raised e)
    | (s', Looping) => (s', Looping)
    end.

Notation "x <- c ;; k" := (bind c (fun x => k))
  (at level 100, c at next level, right associativity).
Notation "c ;; k" := (bind c (fun _ => k))
  (at level 100, right associativity).

Definition emit (e : event) : M unit :=
  fun s => ({| trace := trace s ++ [e]; scratch_dirs := scratch_dirs s; written := written s |},
            Returned tt).

(** [try: body finally: cleanup]: the cleanup runs when the body returns or
    raises; what the cleanup raises replaces the body's outcome. *)
Definition try_finally {A} (body : M A) (cleanup : M unit) : M A :=
  fun s =>
    match body s with
    | (s', Looping) => (s', Looping)
    | (s', r) =>
        match cleanup s' with
        | (s'', Returned _) => (s'', r)
        | (s'', Raised e) => (s'', Raised e)
        | (s'', Looping) => (s'', Looping)
        end
    end.

(** A call of [dereference_symlinks] inside [main]: running out of fuel is
    a loop that has not returned. *)
Definition run_loop {A} (o : option A) : M A :=
  fun s => match o with Some a => (s, Returned a) | None => (s, Looping) end.

(** The message of the usage error. *)
Definition usage_message : string := "'output' positional argument is required".

(** ** The calls to the outside *)

Section Calls.

Variable env : Env.

(** [parser.error(msg)]: prints the usage and [msg], then [sys.exit(2)]. *)
Definition parser_error (msg : string) : M unit :=
  emit (ParserError msg) ;; raise (SystemExit 2).

(** [json.load(sys.stdin)] *)
Definition json_load : M Manifest :=
  emit JsonLoad ;;
  match stdin_json env with
  | Some m => ret m
  | None => raise ValueError
  end.

(** [tempfile.mkdtemp()] *)
Definition mkdtemp : M string :=
  emit Mkdtemp ;;
  match mkdtemp_name env with
  | Some d =>
      fun s => ({| trace := trace s; scratch_dirs := {[ d ]} ∪ scratch_dirs s;
                   written := written s |}, Returned d)
  | None => raise OSError
  end.

(** [PythonInterpreter.from_binary(python)] *)
Definition from_binary (python : string) : M PythonInterpreter :=
  emit (FromBinary python) ;;
  match introspect env python with
  | Some i => ret i
  | None => raise (InterpreterResolutionError python)
  end.

(** [PEXBuilder(path=..., interpreter=...)] *)
Definition new_PEXBuilder (p : string) (i : PythonInterpreter) : M PEXBuilder :=
  emit (NewPEXBuilder p i) ;;
  ret {| path := p; interpreter := i; info := default_info env;
         entries := []; chroot := ∅ |}.

(** Modelled from the spec: [add_source] and [add_resource] of the PEX
    library, which is not among the sources: the entry is registered
    under its category and the content of the source is placed in the
    workspace under [dst]; a destination that escapes the workspace root
    is rejected, and so is a source that cannot be read. *)
Definition register (c : category) (b : PEXBuilder) (src dst : string) : M PEXBuilder :=
  if escapes_root dst then raise (EscapingDestination dst)
  else match file_content (fs env) src with
       | None => raise (MissingSource src)
       | Some content =>
           ret {| path := path b; interpreter := interpreter b; info := info b;
                  entries := entries b ++ [{| entry_dst := dst; entry_src := src;
                                              entry_category := c |}];
                  chroot := <[dst := content]> (chroot b) |}
       end.

Definition add_source (b : PEXBuilder) (src dst : string) : M PEXBuilder :=
  emit (AddSource src dst) ;; register Source b src dst.

Definition add_resource (b : PEXBuilder) (src dst : string) : M PEXBuilder :=
  emit (AddResource src dst) ;; register Resource b src dst.

(** Modelled from the spec: what [build] seals: the registered files
    under their destinations, with the metadata. *)
Definition seal (b : PEXBuilder) : Archive :=
  {| archive_files := chroot b; archive_info := info b;
     archive_identity := identity (interpreter b) |}.

(** Modelled from the spec: [pex_builder.build(output)]: on success the
    sealed archive is at [output]; on failure nothing is left there. *)
Definition build (b : PEXBuilder) (output : string) : M unit :=
  emit (Build b output) ;;
  if seal_fails env then raise BuildError
  else fun s => ({| trace := trace s; scratch_dirs := scratch_dirs s;
                    written := <[output := seal b]> (written s) |}, Returned tt).

(** [shutil.rmtree(dir, ignore_errors)] *)
Definition rmtree (dir : string) (ignore_errors : bool) : M unit :=
  emit (Rmtree dir ignore_errors) ;;
  if rmtree_fails env then
    if ignore_errors then ret tt else raise OSError
  else fun s => ({| trace := trace s; scratch_dirs := scratch_dirs s ∖ {[ dir ]};
                    written := written s |}, Returned tt).

(** [d[key]] on the parsed manifest *)
Definition getitem {A} (key : string) (v : option A) : M A :=
  match v with
  | Some a => ret a
  | None => raise (KeyError key)
  end.

(** ** [main] *)

(** [parser.parse_args()], the options with their defaults *)
Definition parse_args (cli : CommandLine) : Options :=
  {| options_entry_point := default "__main__" (given_entry_point cli);
     options_python := default (sys_executable env) (given_python cli) |}.

(** The interpreter [main] builds:
<<
    PythonInterpreter(
        options.python,
        PythonInterpreter.from_binary(options.python).identity,
        extras={('setuptools', '1.0'):
                os.path.join(BUCK_ROOT, 'third-party/py/setuptools')})
>> *)
Definition custom_interpreter (options : Options) (native : PythonInterpreter)
  : PythonInterpreter :=
  {| binary := options_python options;
     identity := identity native;
     extras := {[ ("setuptools", "1.0") := setuptools_dir (script_file env) ]} |}.

(** [for dst, src in items: add(dereference_symlinks(src), dst)] *)
Fixpoint add_all (add : PEXBuilder -> string -> string -> M PEXBuilder)
    (fuel : nat) (items : list (string * string)) (b : PEXBuilder) : M PEXBuilder :=
  match items with
  | [] => ret b
  | (dst, src) :: rest =>
      resolved <- run_loop (dereference_symlinks (fs env) fuel src) ;;
      b' <- add b resolved dst ;;
      add_all add fuel rest b'
  end.

(** The body of the [try] *)
Definition main_try (options : Options) (output : string) (manifest : Manifest)
    (tmp_dir : string) (fuel : nat) : M unit :=
  native <- from_binary (options_python options) ;;
  pex_builder <- new_PEXBuilder tmp_dir (custom_interpreter options native) ;;
  let pex_builder := set_zip_safe true pex_builder in
  let pex_builder := set_entry_point (options_entry_point options) pex_builder in
  sources <- getitem "modules" (modules manifest) ;;
  pex_builder <- add_all add_source fuel sources pex_builder ;;
  res <- getitem "resources" (resources manifest) ;;
  pex_builder <- add_all add_resource fuel res pex_builder ;;
  build pex_builder output.

(** [main()] from line 45 on, once [parser.parse_args()] has returned
    [options, args], here the decoded command line [cli] (the call itself,
    which can end the process, is [optparse_args] below, and the whole of
    [main()] is [main_argv]); its value is what [main] returns: [None] when
    it falls off the end, [1] after [parser.error] (which does not return). *)
Definition main (cli : CommandLine) (fuel : nat) : M (option Z) :=
  let options := parse_args cli in
  match args cli with
  | [output] =>
      manifest <- json_load ;;
      tmp_dir <- mkdtemp ;;
      try_finally (main_try options output manifest tmp_dir fuel)
                  (rmtree tmp_dir true) ;;
      ret None
  | _ =>
      parser_error usage_message ;;
      ret (Some 1%Z)
  end.

End Calls.

(** [sys.exit(main())]: the status the process exits with, when it exits. *)
Definition exit_status (r : result (option Z)) : option Z :=
  match r with
  | Returned None => Some 0%Z
  | Returned (Some n) => Some n
  | Raised (SystemExit n) => Some n
  | Raised _ => Some 1%Z
  | Looping => None
  end.

(** ** [parser.parse_args()]

    The parser of [main] has three options: [-h]/[--help] (optparse adds
    it), [--entry-point] and [--python], which take one value.  What follows
    is optparse's [_process_args] for this parser, on [sys.argv[1:]]. *)

(** How [parse_args] ends: it prints the help and exits with status 0; it
    calls [parser.error(msg)]; or it returns the values and the positional
    arguments. *)
Inductive parse_outcome :=
  | OptHelp
  | OptError (msg : string)
  | OptValues (cli : CommandLine).

Inductive opt_action := act_help | act_entry_point | act_python.

(** The long options, in sorted order. *)
Definition long_opt : list (string * opt_action) :=
  [("--entry-point", act_entry_point); ("--help", act_help); ("--python", act_python)].

(** [", ".join(l)] *)
Fixpoint comma_join (l : list string) : string :=
  match l with
  | [] => ""
  | [x] => x
  | x :: r => x +:+ ", " +:+ comma_join r
  end.

(** [_match_abbrev(s, wordmap)]: the option [s] names, exactly or as the
    only one it is a prefix of; otherwise the message of the error. *)
Definition match_abbrev (s : string) : string + (string * opt_action) :=
  match List.filter (fun w => String.eqb s w.1) long_opt with
  | w :: _ => inr w
  | [] =>
      match List.filter (fun w => String.prefix s w.1) long_opt with
      | [w] => inr w
      | [] => inl ("no such option: " +:+ s)
      | ws => inl ("ambiguous option: " +:+ s +:+ " (" +:+ comma_join ws.*1 +:+ "?)")
      end
  end.

(** [arg.split("=", 1)], when ["=" in arg] *)
Fixpoint split_eq (s : string) : option (string * string) :=
  match s with
  | EmptyString => None
  | String c r =>
      if Ascii.eqb c "="%char then Some (EmptyString, r)
      else match split_eq r with
           | Some (a, b) => Some (String c a, b)
           | None => None
           end
  end.

(** [_process_args]: the arguments are read from left to right; [--] ends
    the options; an argument that starts with [--] is a long option, with
    its value after [=] or in the next argument; another argument that
    starts with [-] and is longer is a cluster of short options, of which
    the parser only knows [-h]; anything else is a positional argument. *)
Fixpoint process_args (rargs : list string) (ep py : option string) (largs : list string)
    : parse_outcome :=
  match rargs with
  | [] => OptValues {| given_entry_point := ep; given_python := py; args := largs |}
  | arg :: rest =>
      if String.eqb arg "--" then
        OptValues {| given_entry_point := ep; given_python := py; args := largs ++ rest |}
      else if String.prefix "--" arg then
        let (opt, explicit) :=
          match split_eq arg with
          | Some (o, v) => (o, Some v)
          | None => (arg, None)
          end in
        match match_abbrev opt with
        | inl msg => OptError msg
        | inr (name, act_help) =>
            match explicit with
            | Some _ => OptError (name +:+ " option does not take a value")
            | None => OptHelp
            end
        | inr (name, act) =>
            let store v :=
              match act with
              | act_python => (ep, Some v)
              | _ => (Some v, py)
              end in
            match explicit with
            | Some v => process_args rest (store v).1 (store v).2 largs
            | None =>
                match rest with
                | v :: rest' => process_args rest' (store v).1 (store v).2 largs
                | [] => OptError (name +:+ " option requires an argument")
                end
            end
        end
      else
        match arg with
        | String c (String ch _) =>
            if Ascii.eqb c "-"%char then
              if Ascii.eqb ch "h"%char then OptHelp
              else OptError ("no such option: -" +:+ String ch EmptyString)
            else process_args rest ep py (largs ++ [arg])
        | _ => process_args rest ep py (largs ++ [arg])
        end
  end.

(** [parser.parse_args()] on the arguments [argv] of the command line. *)
Definition optparse_args (argv : list string) : parse_outcome :=
  process_args argv None None [].

(** The whole of [main()], from the arguments of the command line: when
    [parse_args] prints the help the process exits with status 0; when it
    finds an error it calls [parser.error], as [main] does for the
    positional arguments. *)
Definition main_argv (env : Env) (argv : list string) (fuel : nat) : M (option Z) :=
  match optparse_args argv with
  | OptHelp => raise (SystemExit 0)
  | OptError msg => parser_error msg ;; ret None
  | OptValues cli => main env cli fuel
  end.

(** ** Vocabulary for the statements *)

(** The state [s] after the calls [evs] were logged. *)
Definition log (s : State) (evs : list event) : State :=
  {| trace := trace s ++ evs; scratch_dirs := scratch_dirs s; written := written s |}.

Definition is_registration (e : event) : Prop :=
  match e with
  | AddSource _ _ | AddResource _ _ => True
  | _ => False
  end.

(** What a call logged by the body of the [try] looks like. *)
Definition try_event (env : Env) (options : Options) (output tmp : string) (e : event) : Prop :=
  match e with
  | FromBinary python => python = options_python options
  | NewPEXBuilder p i =>
      p = tmp /\ exists native, introspect env (options_python options) = Some native
                                /\ i = custom_interpreter env options native
  | AddSource _ _ | AddResource _ _ => True
  | Build b out =>
      out = output /\ path b = tmp
      /\ info b = {| zip_safe := true; entry_point := Some (options_entry_point options) |}
      /\ exists native, introspect env (options_python options) = Some native
                        /\ interpreter b = custom_interpreter env options native
  | _ => False
  end.

(** The builder when the loops start. *)
Definition configured (env : Env) (options : Options) (tmp : string)
    (native : PythonInterpreter) : PEXBuilder :=
  set_entry_point (options_entry_point options)
    (set_zip_safe true
       {| path := tmp; interpreter := custom_interpreter env options native;
          info := default_info env; entries := []; chroot := ∅ |}).

(** The call [e] registers the manifest entry [it]: its source, resolved by
    [dereference_symlinks], under its destination. *)
Definition registers (env : Env) (fuel : nat) (call : string -> string -> event)
    (it : string * string) (e : event) : Prop :=
  exists resolved,
    dereference_symlinks (fs env) fuel it.2 = Some resolved /\ e = call resolved it.1.

(** The state when the [try] is entered. *)
Definition entered (s : State) (tmp : string) : State :=
  {| trace := trace s ++ [JsonLoad; Mkdtemp];
     scratch_dirs := {[ tmp ]} ∪ scratch_dirs s;
     written := written s |}.

(** The state when the [finally] clause is done. *)
Definition cleaned (env : Env) (s : State) (tmp : string) : State :=
  {| trace := trace s ++ [Rmtree tmp true];
     scratch_dirs := if rmtree_fails env then scratch_dirs s else scratch_dirs s ∖ {[ tmp ]};
     written := written s |}.

(** What [main] makes of the outcome of the body of the [try]. *)
Definition outcome (r : result unit) : result (option Z) :=
  match r with
  | Returned _ => Returned None
  | Raised e => Raised e
  | Looping => Looping
  end.

(** The same world, with another fate for the removal of the scratch
    directory. *)
Definition with_rmtree_fails (v : bool) (env : Env) : Env :=
  {| fs := fs env; sys_executable := sys_executable env; script_file := script_file env;
     stdin_json := stdin_json env; mkdtemp_name := mkdtemp_name env;
     introspect := introspect env; default_info := default_info env;
     seal_fails := seal_fails env; rmtree_fails := v |}.

(** The place of a call in the pipeline of [main]. *)
Definition phase (e : event) : nat :=
  match e with
  | ParserError _ => 0
  | JsonLoad => 1
  | Mkdtemp => 2
  | FromBinary _ => 3
  | NewPEXBuilder _ _ => 4
  | AddSource _ _ => 5
  | AddResource _ _ => 6
  | Build _ _ => 7
  | Rmtree _ _ => 8
  end.

(** [e1] may come before [e2]: it belongs to an earlier phase, or both are
    registrations of the same kind. *)
Definition precedes (e1 e2 : event) : Prop :=
  phase e1 < phase e2 \/ (phase e1 = phase e2 /\ is_registration e1).

(** An exception other than [SystemExit]. *)
Definition not_exit (e : exn) : Prop :=
  match e with
  | SystemExit _ => False
  | _ => True
  end.

(** ** Sample worlds *)

Definition links_of (l : list (string * string)) : FileSystem :=
  {| symlink_target := fun p => (list_to_map l : gmap string string) !! p;
     file_content := fun _ => None |}.

(** [/out] is a link to a directory, [/out/main.py] a link to a sibling. *)
Definition fs_outdir : FileSystem :=
  links_of [("/out", "/real/out"); ("/out/main.py", "gen/main.py");
            ("/out/gen/main.py", "../../cache/0a1b.py")].

(** [/a] points to itself; [/x] and [/y] point to each other. *)
Definition fs_loop : FileSystem :=
  links_of [("/a", "a"); ("/x", "y"); ("/y", "/x")].

Definition fs_of (links : list (string * string))
    (files : list (string * list Byte.byte)) : FileSystem :=
  {| symlink_target := fun p => (list_to_map links : gmap string string) !! p;
     file_content := fun p => (list_to_map files : gmap string (list Byte.byte)) !! p |}.

Definition sample_fs : FileSystem :=
  fs_of [("/src/main.py", "gen/main.py"); ("/loop/a.py", "a.py")]
        [("/src/gen/main.py", list_byte_of_string "print 1");
         ("/src/data.txt", list_byte_of_string "42")].

Definition sample_manifest : Manifest :=
  {| modules := Some [("app/main.py", "/src/main.py")];
     resources := Some [("app/data.txt", "/src/data.txt")] |}.

Definition native_python (p : string) : PythonInterpreter :=
  {| binary := p; identity := "CPython-2.7.5";
     extras := {[ ("setuptools", "0.6") := "/usr/lib/python2.7/site-packages" ]} |}.

Definition env_with (m : option Manifest) (seal_bad rm_bad : bool) : Env :=
  {| fs := sample_fs;
     sys_executable := "/usr/bin/python";
     script_file := "/home/dev/buck/src/com/facebook/buck/python/pex.py";
     stdin_json := m;
     mkdtemp_name := Some "/tmp/tmpAb12";
     introspect := fun p => Some (native_python p);
     default_info := {| zip_safe := false; entry_point := None |};
     seal_fails := seal_bad;
     rmtree_fails := rm_bad |}.

Definition sample_env : Env := env_with (Some sample_manifest) false false.

Definition cli_of (l : list string) : CommandLine :=
  {| given_entry_point := None; given_python := None; args := l |}.

Definition sample_builder : PEXBuilder :=
  {| path := "/tmp/tmpAb12";
     interpreter := custom_interpreter sample_env (parse_args sample_env (cli_of ["out.pex"]))
                      (native_python "/usr/bin/python");
     info := {| zip_safe := true; entry_point := Some "__main__" |};
     entries := [ {| entry_dst := "app/main.py"; entry_src := "/src/gen/main.py";
                     entry_category := Source |};
                  {| entry_dst := "app/data.txt"; entry_src := "/src/data.txt";
                     entry_category := Resource |} ];
     chroot := <["app/data.txt" := list_byte_of_string "42"]>
                 (<["app/main.py" := list_byte_of_string "print 1"]> ∅) |}.

(** A run whose [build] fails and whose removal of the scratch directory
    fails too. *)
Definition failing_env : Env := env_with (Some sample_manifest) true true.

Definition escaping_manifest : Manifest :=
  {| modules := Some [("app/main.py", "/src/main.py")];
     resources := Some [("../../etc/cron.d/job", "/src/data.txt")] |}.

(** A manifest whose only module is a link to itself. *)
Definition looping_manifest : Manifest :=
  {| modules := Some [("app/a.py", "/loop/a.py")]; resources := Some [] |}.

(** A manifest without the [resources] key, and one without any key. *)
Definition modules_only_manifest : Manifest :=
  {| modules := Some [("app/main.py", "/src/main.py")]; resources := None |}.

Definition no_key_manifest : Manifest := {| modules := None; resources := None |}.

Definition empty_manifest : Manifest := {| modules := Some []; resources := Some [] |}.

(** The sample world, with an interpreter that cannot be introspected. *)
Definition no_python_env : Env :=
  {| fs := sample_fs;
     sys_executable := "/usr/bin/python";
     script_file := "/home/dev/buck/src/com/facebook/buck/python/pex.py";
     stdin_json := Some looping_manifest;
     mkdtemp_name := Some "/tmp/tmpAb12";
     introspect := fun _ => None;
     default_info := {| zip_safe := false; entry_point := None |};
     seal_fails := false;
     rmtree_fails := false |}.

(** A manifest entry that registers once its source is resolved: its
    destination stays inside the workspace and what its source resolves to
    can be read. *)
Definition registrable (env : Env) (it : string * string) : Prop :=
  escapes_root it.1 = false
  /\ forall resolved, derefs (fs env) it.2 resolved ->
                     is_Some (file_content (fs env) resolved).

(** * Sample runs *)

Example dirname_file : dirname "/usr/lib/python" = "/usr/lib".
Proof. reflexivity. Qed.

Example dirname_trailing : dirname "/usr/lib/" = "/usr/lib".
Proof. reflexivity. Qed.

Example dirname_root : dirname "/python" = "/".
Proof. reflexivity. Qed.

Example dirname_double : dirname "//python" = "//".
Proof. reflexivity. Qed.

Example dirname_doubled_inner : dirname "a//b" = "a".
Proof. reflexivity. Qed.

Example dirname_bare : dirname "python" = "".
Proof. reflexivity. Qed.

Example join_rel : join "/usr/lib" "python2.7" = "/usr/lib/python2.7".
Proof. reflexivity. Qed.

Example join_abs : join "/usr/lib" "/opt/py" = "/opt/py".
Proof. reflexivity. Qed.

Example join_empty : join "" "py" = "py".
Proof. reflexivity. Qed.

Example join_slash : join "/" "py" = "/py".
Proof. reflexivity. Qed.

Example split_abs : split "/a/b" = [""; "a"; "b"].
Proof. reflexivity. Qed.

Example split_join : sep_join (drop_last 1 (split "/a/b")) = "/a".
Proof. reflexivity. Qed.

Example BUCK_ROOT_checkout :
  BUCK_ROOT "/home/dev/buck/src/com/facebook/buck/python/pex.py" = "/home/dev/buck".
Proof. reflexivity. Qed.

Example setuptools_dir_checkout :
  setuptools_dir "/home/dev/buck/src/com/facebook/buck/python/pex.py"
  = "/home/dev/buck/third-party/py/setuptools".
Proof. reflexivity. Qed.

Example deref_outdir :
  dereference_symlinks fs_outdir 2 "/out/main.py" = Some "/out/gen/../../cache/0a1b.py".
Proof. vm_compute. reflexivity. Qed.

Example deref_outdir_short :
  dereference_symlinks fs_outdir 1 "/out/main.py" = None.
Proof. vm_compute. reflexivity. Qed.

Example deref_plain :
  dereference_symlinks fs_outdir 0 "src/main.py" = Some "src/main.py".
Proof. vm_compute. reflexivity. Qed.

Example escapes_parent : escapes_root "../etc/passwd" = true.
Proof. reflexivity. Qed.

Example escapes_later : escapes_root "app/../../main.py" = true.
Proof. reflexivity. Qed.

Example stays_inside : escapes_root "app/sub/../main.py" = false.
Proof. reflexivity. Qed.

Example sample_run_result :
  (main sample_env (cli_of ["out.pex"]) 1 initial).2 = Returned None.
Proof. vm_compute. reflexivity. Qed.

Example sample_run_trace :
  trace (main sample_env (cli_of ["out.pex"]) 1 initial).1
  = [ JsonLoad; Mkdtemp; FromBinary "/usr/bin/python";
      NewPEXBuilder "/tmp/tmpAb12" (interpreter sample_builder);
      AddSource "/src/gen/main.py" "app/main.py";
      AddResource "/src/data.txt" "app/data.txt";
      Build sample_builder "out.pex";
      Rmtree "/tmp/tmpAb12" true ].
Proof. vm_compute. reflexivity. Qed.

Example sample_run_archive :
  archive_files <$> (written (main sample_env (cli_of ["out.pex"]) 1 initial).1 !! "out.pex")
  = Some (chroot sample_builder).
Proof. vm_compute. reflexivity. Qed.

Example sample_run_no_fuel :
  (main sample_env (cli_of ["out.pex"]) 0 initial).2 = Looping.
Proof. vm_compute. reflexivity. Qed.

Example sample_run_usage :
  main sample_env (cli_of []) 0 initial
  = ({| trace := [ParserError usage_message];
        scratch_dirs := ∅; written := ∅ |}, Raised (SystemExit 2)).
Proof. reflexivity. Qed.

Example escaping_run :
  (main (env_with (Some escaping_manifest) false false) (cli_of ["out.pex"]) 1 initial).2
  = Raised (EscapingDestination "../../etc/cron.d/job").
Proof. vm_compute. reflexivity. Qed.

Example optparse_help : optparse_args ["--help"] = OptHelp.
Proof. reflexivity. Qed.

Example optparse_help_first : optparse_args ["-h"; "a.pex"; "b.pex"] = OptHelp.
Proof. reflexivity. Qed.

Example optparse_unknown :
  optparse_args ["out.pex"; "--bogus"] = OptError "no such option: --bogus".
Proof. reflexivity. Qed.

Example optparse_unknown_short :
  optparse_args ["-x"; "out.pex"] = OptError "no such option: -x".
Proof. reflexivity. Qed.

Example optparse_missing_value :
  optparse_args ["out.pex"; "--python"] = OptError "--python option requires an argument".
Proof. reflexivity. Qed.

Example optparse_help_value :
  optparse_args ["--help=1"] = OptError "--help option does not take a value".
Proof. reflexivity. Qed.

Example optparse_ambiguous :
  optparse_args ["--=x"]
  = OptError "ambiguous option: -- (--entry-point, --help, --python?)".
Proof. reflexivity. Qed.

Example optparse_values :
  optparse_args ["--entry=app.main"; "out.pex"; "--python"; "-h"]
  = OptValues {| given_entry_point := Some "app.main"; given_python := Some "-h";
                 args := ["out.pex"] |}.
Proof. reflexivity. Qed.

Example optparse_terminator :
  optparse_args ["-"; "--"; "-h"; "--bogus"]
  = OptValues {| given_entry_point := None; given_python := None;
                 args := ["-"; "-h"; "--bogus"] |}.
Proof. reflexivity. Qed.

Example optparse_last_wins :
  optparse_args ["--python=/a"; "--python"; "/b"; "out.pex"]
  = OptValues {| given_entry_point := None; given_python := Some "/b";
                 args := ["out.pex"] |}.
Proof. reflexivity. Qed.

(** * Properties *)

(** ** Paths *)

Section PathFacts.

Lemma rstrip_sep_empty s : rstrip_sep s = "" -> all_sep s = true.
Proof.
  induction s as [|c r IH]; simpl; [reflexivity|].
  destruct (rstrip_sep r) eqn:Hr; [|discriminate].
  destruct (is_sep c); [intros _; simpl; now apply IH | discriminate].
Qed.

Lemma isabs_rstrip_sep s :
  all_sep s = false -> isabs (rstrip_sep s) = isabs s.
Proof.
  destruct s as [|c r]; simpl; [reflexivity|].
  intros Hall. destruct (rstrip_sep r) eqn:Hr; [|reflexivity].
  apply rstrip_sep_empty in Hr. rewrite Hr, andb_true_r in Hall.
  now rewrite Hall.
Qed.

Lemma isabs_upto_last_sep p :
  isabs (upto_last_sep p) = isabs p.
Proof.
  destruct p as [|c r]; simpl; [reflexivity|].
  destruct (is_sep c) eqn:Hc; simpl; [exact Hc|].
  destruct (has_sep r); simpl; [exact Hc | reflexivity].
Qed.

(** A directory name is absolute exactly when the path is. *)
Lemma isabs_dirname p : isabs (dirname p) = isabs p.
Proof.
  unfold dirname.
  destruct (negb (String.eqb (upto_last_sep p) "") && negb (all_sep (upto_last_sep p))) eqn:H.
  - apply andb_true_iff in H as [_ H]. apply negb_true_iff in H.
    rewrite isabs_rstrip_sep by exact H. apply isabs_upto_last_sep.
  - apply isabs_upto_last_sep.
Qed.

Lemma isabs_app a b : isabs (a +:+ b) = if String.eqb a "" then isabs b else isabs a.
Proof. destruct a; reflexivity. Qed.

(** [join a b] is absolute exactly when [b] is, or [b] is not and [a] is. *)
Lemma isabs_join a b : isabs (join a b) = isabs b || isabs a.
Proof.
  unfold join. destruct (isabs b) eqn:Hb; simpl; [exact Hb|].
  destruct (String.eqb a "") eqn:Ha; simpl.
  - apply String.eqb_eq in Ha. subst a. exact Hb.
  - destruct (endswith_sep a); rewrite isabs_app, Ha; reflexivity.
Qed.

Lemma isabs_replace_leaf p target :
  isabs (replace_leaf p target) = isabs target || isabs p.
Proof. unfold replace_leaf. now rewrite isabs_join, isabs_dirname. Qed.

(** An absolute target replaces the whole path. *)
Lemma replace_leaf_abs p target :
  isabs target = true -> replace_leaf p target = target.
Proof. unfold replace_leaf, join. now intros ->. Qed.

(** A relative target is appended to the directory of the link, which is
    kept as it is written. *)
Lemma replace_leaf_rel p target :
  isabs target = false ->
  exists glue, replace_leaf p target = dirname p +:+ glue +:+ target
               /\ (glue = "" \/ glue = "/").
Proof.
  unfold replace_leaf, join. intros ->.
  destruct (String.eqb (dirname p) "" || endswith_sep (dirname p)).
  - exists "". split; [reflexivity | now left].
  - exists "/". split; [reflexivity | now right].
Qed.

End PathFacts.

(** ** [dereference_symlinks] *)

Section Dereference.

Variable fs : FileSystem.

Lemma deref_not_link fuel p :
  symlink_target fs p = None -> dereference_symlinks fs fuel p = Some p.
Proof. intros H. destruct fuel; simpl; now rewrite H. Qed.

Lemma deref_link fuel p target :
  symlink_target fs p = Some target ->
  dereference_symlinks fs (S fuel) p
  = dereference_symlinks fs fuel (replace_leaf p target).
Proof. intros H. simpl. now rewrite H. Qed.

Lemma deref_link_O p target :
  symlink_target fs p = Some target -> dereference_symlinks fs 0 p = None.
Proof. intros H. simpl. now rewrite H. Qed.

(** More fuel does not change a result. *)
Lemma deref_fuel_mono fuel fuel' p r :
  dereference_symlinks fs fuel p = Some r -> fuel <= fuel' ->
  dereference_symlinks fs fuel' p = Some r.
Proof.
  revert fuel' p. induction fuel as [|n IH]; intros fuel' p Hr Hle.
  - simpl in Hr. destruct (symlink_target fs p) eqn:Hp; [discriminate|].
    inversion Hr; subst. now apply deref_not_link.
  - destruct (symlink_target fs p) as [t|] eqn:Hp.
    + destruct fuel' as [|m]; [lia|].
      rewrite (deref_link n _ _ Hp) in Hr. rewrite (deref_link m _ _ Hp).
      apply IH; [assumption | lia].
    + rewrite (deref_not_link _ _ Hp) in Hr. inversion Hr; subst.
      now apply deref_not_link.
Qed.

(** What the loop returns is not a link. *)
Lemma deref_result_not_link fuel p r :
  dereference_symlinks fs fuel p = Some r -> symlink_target fs r = None.
Proof.
  revert p. induction fuel as [|n IH]; intros p; simpl;
    destruct (symlink_target fs p) eqn:Hp; try discriminate.
  - intros [= <-]. exact Hp.
  - apply IH.
  - intros [= <-]. exact Hp.
Qed.

(** The fuelled function and the big-step relation agree. *)
Lemma derefs_fuel p r :
  derefs fs p r <-> exists fuel, dereference_symlinks fs fuel p = Some r.
Proof.
  split.
  - induction 1 as [p Hp | p t r Hp _ [n IH]].
    + exists 0. now apply deref_not_link.
    + exists (S n). now rewrite (deref_link _ _ _ Hp).
  - intros [n Hn]. revert p Hn. induction n as [|n IH]; intros p; simpl;
      destruct (symlink_target fs p) eqn:Hp; try discriminate.
    + intros [= <-]. now constructor.
    + intros H. eapply derefs_iter; [exact Hp | now apply IH].
    + intros [= <-]. now constructor.
Qed.

Lemma leaf_chain_app a b x y z :
  leaf_chain fs a x y -> leaf_chain fs b y z -> leaf_chain fs (a + b) x z.
Proof.
  induction 1 as [p | n p t q Hp _ IH]; intros Hb; simpl; [assumption|].
  eapply leaf_chain_S; [exact Hp | now apply IH].
Qed.

(** Following a finite chain: [n] iterations are enough, and fewer are not. *)
Lemma deref_chain n p q :
  leaf_chain fs n p q -> symlink_target fs q = None ->
  forall fuel,
    dereference_symlinks fs fuel p = if decide (n <= fuel) then Some q else None.
Proof.
  induction 1 as [p | n p t q Hp _ IH]; intros Hq fuel.
  - rewrite decide_True by lia. now apply deref_not_link.
  - destruct fuel as [|m].
    + rewrite decide_False by lia. now apply (deref_link_O _ t).
    + rewrite (deref_link _ _ _ Hp), IH by assumption.
      destruct (decide (n <= m)); [rewrite decide_True by lia | rewrite decide_False by lia];
        reflexivity.
Qed.

(** A call that returns has followed a finite chain. *)
Lemma deref_has_chain fuel p r :
  dereference_symlinks fs fuel p = Some r ->
  exists n, n <= fuel /\ leaf_chain fs n p r /\ symlink_target fs r = None.
Proof.
  revert p. induction fuel as [|m IH]; intros p; simpl;
    destruct (symlink_target fs p) as [t|] eqn:Hp; try discriminate.
  - intros [= <-]. exists 0. split; [lia|]. split; [constructor | exact Hp].
  - intros H. destruct (IH _ H) as (n & Hn & Hc & Hr).
    exists (S n). split; [lia|]. split; [|exact Hr].
    eapply leaf_chain_S; [exact Hp | exact Hc].
  - intros [= <-]. exists 0. split; [lia|]. split; [constructor | exact Hp].
Qed.

(** On a cycle the loop never returns. *)
Lemma deref_cyclic fuel : forall p,
  cyclic fs p -> dereference_symlinks fs fuel p = None.
Proof.
  induction fuel as [|m IH]; intros p [n Hc].
  - inversion Hc; subst. now apply (deref_link_O _ target).
  - inversion Hc as [|n' p' t q Hp Hrest]; subst.
    rewrite (deref_link _ _ _ Hp). apply IH. exists n.
    replace (S n) with (n + 1) by lia.
    eapply leaf_chain_app; [exact Hrest|].
    eapply leaf_chain_S; [exact Hp | constructor].
Qed.

End Dereference.

Lemma leaf_chain_agree (fs fs' : FileSystem) n p q :
  leaf_chain fs n p q ->
  (forall k x, leaf_chain fs k p x -> symlink_target fs' x = symlink_target fs x) ->
  leaf_chain fs' n p q.
Proof.
  induction 1 as [p | n p t q Hp Hc IH]; intros Hagree; [constructor|].
  eapply leaf_chain_S.
  - rewrite (Hagree 0 p) by constructor. exact Hp.
  - apply IH. intros k x Hk. apply (Hagree (S k)).
    eapply leaf_chain_S; [exact Hp | exact Hk].
Qed.

Lemma leaf_chain_isabs (fs : FileSystem) n p q :
  leaf_chain fs n p q -> isabs p = true -> isabs q = true.
Proof.
  induction 1 as [p | n p t q _ _ IH]; intros Hp; [assumption|].
  apply IH. rewrite isabs_replace_leaf, Hp. apply orb_true_r.
Qed.

(** C2: when the final component of [p] starts a finite chain of [n >= 0]
    symbolic links that ends in [q] (each hop replacing the final component
    by the link target joined against the directory of the link, [q] not a
    link), [dereference_symlinks] returns [q] as soon as it is given [n]
    iterations; for [n = 0] it returns [p] itself; and the result is the
    same on every file system that agrees on the paths of the chain,
    whatever it says of any other path, the directories of [p] among them:
    links in the directory components are not looked at. *)
Theorem dereference_symlinks_follows_leaf_chain
    (fs : FileSystem) (n : nat) (p q : string) :
  leaf_chain fs n p q -> symlink_target fs q = None ->
  (forall fuel, n <= fuel -> dereference_symlinks fs fuel p = Some q)
  /\ derefs fs p q
  /\ (n = 0 -> q = p)
  /\ (forall fs',
        (forall k x, leaf_chain fs k p x -> symlink_target fs' x = symlink_target fs x) ->
        forall fuel, n <= fuel -> dereference_symlinks fs' fuel p = Some q).
Proof.
  intros Hc Hq. split; [|split; [|split]].
  - intros fuel Hle. rewrite (deref_chain fs n p q Hc Hq). now rewrite decide_True.
  - apply derefs_fuel. exists n.
    rewrite (deref_chain fs n p q Hc Hq). now rewrite decide_True.
  - intros ->. now inversion Hc.
  - intros fs' Hagree fuel Hle.
    assert (Hc' : leaf_chain fs' n p q) by (eapply leaf_chain_agree; eassumption).
    assert (Hq' : symlink_target fs' q = None)
      by (rewrite (Hagree n q Hc); exact Hq).
    rewrite (deref_chain fs' n p q Hc' Hq'). now rewrite decide_True.
Qed.

Lemma dereference_symlinks_follows_leaf_chain_witness :
  (forall fuel, 2 <= fuel ->
     dereference_symlinks fs_outdir fuel "/out/main.py" = Some "/out/gen/../../cache/0a1b.py")
  /\ derefs fs_outdir "/out/main.py" "/out/gen/../../cache/0a1b.py"
  /\ (2 = 0 -> "/out/gen/../../cache/0a1b.py" = "/out/main.py")
  /\ (forall fs',
        (forall k x, leaf_chain fs_outdir k "/out/main.py" x ->
                     symlink_target fs' x = symlink_target fs_outdir x) ->
        forall fuel, 2 <= fuel ->
          dereference_symlinks fs' fuel "/out/main.py" = Some "/out/gen/../../cache/0a1b.py").
Proof.
  apply (dereference_symlinks_follows_leaf_chain fs_outdir 2).
  - apply (leaf_chain_S fs_outdir 1 "/out/main.py" "gen/main.py"); [vm_compute; reflexivity|].
    apply (leaf_chain_S fs_outdir 0 "/out/gen/main.py" "../../cache/0a1b.py");
      [vm_compute; reflexivity|].
    apply (leaf_chain_O fs_outdir "/out/gen/../../cache/0a1b.py").
  - vm_compute; reflexivity.
Defined.

(** C3 fails on the code as stated: on the link [/a -> a], which points to
    itself, no number of iterations leaves the loop. *)
Lemma dereference_symlinks_loops_on_self_link :
  ~ terminates fs_loop "/a".
Proof.
  intros (fuel & r & H).
  rewrite deref_cyclic in H; [discriminate|].
  exists 0. apply (leaf_chain_S fs_loop 0 "/a" "a"); [vm_compute; reflexivity|].
  apply (leaf_chain_O fs_loop "/a").
Qed.

(** C3, amended: [dereference_symlinks] returns exactly when the chain of
    leaf links that starts at its argument is finite; on a chain that comes
    back to its start it never leaves the loop, whatever the number of
    iterations, and it raises nothing. *)
Theorem dereference_symlinks_terminates_iff_finite (fs : FileSystem) (p : string) :
  (terminates fs p <-> exists n q, leaf_chain fs n p q /\ symlink_target fs q = None)
  /\ (cyclic fs p -> forall fuel, dereference_symlinks fs fuel p = None).
Proof.
  split; [split|].
  - intros (fuel & r & H). destruct (deref_has_chain fs fuel p r H) as (n & _ & Hc & Hr).
    now exists n, r.
  - intros (n & q & Hc & Hq). exists n, q.
    rewrite (deref_chain fs n p q Hc Hq). now rewrite decide_True.
  - intros Hcyc fuel. now apply deref_cyclic.
Qed.

(** C9 fails on the code as stated: a relative path that is not a link is
    returned as it is, and it is not absolute. *)
Lemma dereference_symlinks_relative_result :
  exists r, dereference_symlinks fs_outdir 0 "src/main.py" = Some r /\ isabs r = false.
Proof. exists "src/main.py". split; vm_compute; reflexivity. Qed.

(** C9, amended: for an absolute path, what [dereference_symlinks] returns
    is absolute; a path that is not a link, absolute or relative, is
    returned unchanged. *)
Theorem dereference_symlinks_keeps_absolute
    (fs : FileSystem) (fuel : nat) (p r : string) :
  dereference_symlinks fs fuel p = Some r ->
  (isabs p = true -> isabs r = true)
  /\ (symlink_target fs p = None -> r = p).
Proof.
  intros H. split.
  - destruct (deref_has_chain fs fuel p r H) as (n & _ & Hc & _).
    now apply (leaf_chain_isabs fs n).
  - intros Hp. rewrite (deref_not_link fs fuel p Hp) in H. now inversion H.
Qed.

Lemma dereference_symlinks_keeps_absolute_witness :
  (isabs "/out/main.py" = true -> isabs "/out/gen/../../cache/0a1b.py" = true)
  /\ (symlink_target fs_outdir "/out/main.py" = None ->
      "/out/gen/../../cache/0a1b.py" = "/out/main.py").
Proof.
  apply (dereference_symlinks_keeps_absolute fs_outdir 2).
  vm_compute; reflexivity.
Defined.

(** C10: when [dereference_symlinks] returns on [p], what it returns is
    not a symbolic link, and calling it on that result returns the result
    again: applied twice it gives what it gives applied once. *)
Theorem dereference_symlinks_idempotent
    (fs : FileSystem) (fuel : nat) (p r : string) :
  dereference_symlinks fs fuel p = Some r ->
  islink fs r = false
  /\ (forall fuel', dereference_symlinks fs fuel' r = Some r)
  /\ (forall fuel', dereference_symlinks fs fuel p ≫= dereference_symlinks fs fuel'
                    = dereference_symlinks fs fuel p).
Proof.
  intros H. pose proof (deref_result_not_link fs fuel p r H) as Hr.
  split; [unfold islink; now rewrite Hr|]. split.
  - intros fuel'. now apply deref_not_link.
  - intros fuel'. rewrite H. simpl. now apply deref_not_link.
Qed.

Lemma dereference_symlinks_idempotent_witness :
  islink fs_outdir "/out/gen/../../cache/0a1b.py" = false
  /\ (forall fuel', dereference_symlinks fs_outdir fuel' "/out/gen/../../cache/0a1b.py"
                    = Some "/out/gen/../../cache/0a1b.py")
  /\ (forall fuel', dereference_symlinks fs_outdir 2 "/out/main.py"
                      ≫= dereference_symlinks fs_outdir fuel'
                    = dereference_symlinks fs_outdir 2 "/out/main.py").
Proof.
  apply (dereference_symlinks_idempotent fs_outdir 2 "/out/main.py").
  vm_compute; reflexivity.
Defined.

(** ** Runs of [main] *)

Lemma log_nil s : log s [] = s.
Proof. destruct s. unfold log. simpl. now rewrite app_nil_r. Qed.

Lemma log_log s a b : log (log s a) b = log s (a ++ b).
Proof. unfold log. simpl. now rewrite app_assoc. Qed.

Section Runs.

Variable env : Env.

Lemma register_run c b src dst s :
  register env c b src dst s
  = (s, if escapes_root dst then Raised (EscapingDestination dst)
        else match file_content (fs env) src with
             | None => Raised (MissingSource src)
             | Some content =>
                 Returned {| path := path b; interpreter := interpreter b; info := info b;
                             entries := entries b ++ [{| entry_dst := dst; entry_src := src;
                                                         entry_category := c |}];
                             chroot := <[dst := content]> (chroot b) |}
             end).
Proof.
  unfold register. destruct (escapes_root dst); [reflexivity|].
  destruct (file_content (fs env) src); reflexivity.
Qed.

Lemma from_binary_run python s :
  from_binary env python s
  = (log s [FromBinary python],
     match introspect env python with
     | Some i => Returned i
     | None => Raised (InterpreterResolutionError python)
     end).
Proof. unfold from_binary, bind, emit. simpl. destruct (introspect env python); reflexivity. Qed.

Lemma build_run b output s :
  build env b output s
  = if seal_fails env then (log s [Build b output], Raised BuildError)
    else ({| trace := trace s ++ [Build b output]; scratch_dirs := scratch_dirs s;
             written := <[output := seal b]> (written s) |}, Returned tt).
Proof. unfold build, bind, emit. simpl. destruct (seal_fails env); reflexivity. Qed.

Lemma rmtree_run dir s :
  rmtree env dir true s
  = ({| trace := trace s ++ [Rmtree dir true];
        scratch_dirs := if rmtree_fails env then scratch_dirs s else scratch_dirs s ∖ {[ dir ]};
        written := written s |}, Returned tt).
Proof. unfold rmtree, bind, emit. simpl. destruct (rmtree_fails env); reflexivity. Qed.

(** *** The two loops over the manifest *)

Section AddAll.

Variable add : PEXBuilder -> string -> string -> M PEXBuilder.
Variable call : string -> string -> event.
Variable c : category.
Hypothesis add_def :
  forall b src dst, add b src dst = (emit (call src dst) ;; register env c b src dst).
Hypothesis call_registration : forall src dst, is_registration (call src dst).

Lemma add_run b src dst s :
  add b src dst s = (log s [call src dst], (register env c b src dst s).2).
Proof. rewrite add_def. unfold bind, emit. simpl. now rewrite !register_run. Qed.

(** Whatever the outcome, a loop only logs registration calls. *)
Lemma add_all_frame fuel items : forall b s s' r,
  add_all env add fuel items b s = (s', r) ->
  exists evs, s' = log s evs /\ Forall is_registration evs.
Proof.
  induction items as [|[dst src] rest IH]; intros b s s' r H; simpl in H.
  - inversion H; subst. exists []. now rewrite log_nil.
  - unfold bind at 1 in H. unfold run_loop in H.
    destruct (dereference_symlinks (fs env) fuel src) as [resolved|].
    + unfold bind at 1 in H. rewrite add_run, register_run in H. simpl in H.
      destruct (escapes_root dst);
        [inversion H; subst; exists [call resolved dst]; now repeat constructor|].
      destruct (file_content (fs env) resolved);
        [|inversion H; subst; exists [call resolved dst]; now repeat constructor].
      apply IH in H as (evs & -> & Hevs).
      exists (call resolved dst :: evs). rewrite log_log. simpl.
      split; [reflexivity | now constructor].
    + inversion H; subst. exists []. now rewrite log_nil.
Qed.

(** A loop that completes: every entry was resolved and registered, in
    order; the metadata is untouched; the workspace holds the content
    of each resolved source under its destination. *)
Lemma add_all_returned fuel items : forall b s s' b',
  add_all env add fuel items b s = (s', Returned b') ->
  (exists evs, s' = log s evs
     /\ Forall2 (fun it e => exists resolved,
                    dereference_symlinks (fs env) fuel it.2 = Some resolved
                    /\ e = call resolved it.1) items evs)
  /\ path b' = path b /\ interpreter b' = interpreter b /\ info b' = info b
  /\ Forall (fun it => escapes_root it.1 = false) items
  /\ dom (chroot b') = dom (chroot b) ∪ list_to_set items.*1
  /\ (forall d, d ∉ items.*1 -> chroot b' !! d = chroot b !! d)
  /\ (NoDup items.*1 ->
      forall dst src, (dst, src) ∈ items ->
        exists resolved content,
          dereference_symlinks (fs env) fuel src = Some resolved
          /\ file_content (fs env) resolved = Some content
          /\ chroot b' !! dst = Some content).
Proof.
  induction items as [|[dst src] rest IH]; intros b s s' b' H; simpl in H.
  - inversion H; subst. split; [exists []; now rewrite log_nil|].
    repeat split; try done.
    + simpl. now rewrite union_empty_r_L.
    + intros _ dst src Hin. now apply elem_of_nil in Hin.
  - unfold bind at 1 in H. unfold run_loop in H.
    destruct (dereference_symlinks (fs env) fuel src) as [resolved|] eqn:Hres;
      [|discriminate].
    unfold bind at 1 in H. rewrite add_run, register_run in H. simpl in H.
    destruct (escapes_root dst) eqn:Hesc; [discriminate|].
    destruct (file_content (fs env) resolved) as [content|] eqn:Hcontent; [|discriminate].
    apply IH in H as ((evs & -> & Hevs) & Hpath & Hint & Hinfo & Hok & Hdom & Hother & Hin).
    simpl in *. split.
    { exists (call resolved dst :: evs). rewrite log_log. split; [reflexivity|].
      constructor; [now exists resolved | exact Hevs]. }
    split; [exact Hpath|]. split; [exact Hint|]. split; [exact Hinfo|].
    split; [now constructor|]. split; [|split].
    + rewrite Hdom, dom_insert_L, (comm_L (∪) {[dst]} (dom (chroot b))).
      now rewrite (assoc_L (∪)).
    + intros d Hd. apply not_elem_of_cons in Hd as [Hne Hd].
      rewrite Hother by exact Hd. now rewrite lookup_insert_ne.
    + intros Hnodup dst' src' Hin'. apply NoDup_cons in Hnodup as [Hfresh Hnodup].
      apply elem_of_cons in Hin' as [[= -> ->] | Hin'].
      * exists resolved, content. split; [exact Hres|]. split; [exact Hcontent|].
        rewrite Hother by exact Hfresh. apply lookup_insert_eq.
      * now apply Hin.
Qed.

(** An entry whose destination escapes the workspace stops the loop. *)
Lemma add_all_escaping fuel items dst src :
  (dst, src) ∈ items -> escapes_root dst = true ->
  forall b s s' b', add_all env add fuel items b s <> (s', Returned b').
Proof.
  intros Hin Hesc b s s' b' H. apply add_all_returned in H.
  destruct H as (_ & _ & _ & _ & Hok & _).
  rewrite Forall_forall in Hok. specialize (Hok _ Hin). simpl in Hok. congruence.
Qed.

(** With every source resolved within [fuel] iterations, the loop ends. *)
Lemma add_all_exits fuel items :
  Forall (fun it => is_Some (dereference_symlinks (fs env) fuel it.2)) items ->
  forall b s, (add_all env add fuel items b s).2 <> Looping.
Proof.
  induction 1 as [|[dst src] rest [resolved Hres] _ IH]; intros b s; simpl; [discriminate|].
  simpl in Hres. unfold bind at 1. unfold run_loop. rewrite Hres.
  unfold bind at 1. rewrite add_run, register_run. simpl.
  destruct (escapes_root dst); [discriminate|].
  destruct (file_content (fs env) resolved); [apply IH | discriminate].
Qed.

End AddAll.

End Runs.

(** *** The body of the [try] *)

Lemma is_registration_try_event env options output tmp evs :
  Forall is_registration evs -> Forall (try_event env options output tmp) evs.
Proof. intros H. eapply Forall_impl; [exact H|]. intros [] He; simpl in *; tauto. Qed.

Section TryBody.

Variable env : Env.
Variable options : Options.
Variables output tmp : string.
Variable manifest : Manifest.
Variable fuel : nat.

(** The body up to the first loop. *)
Lemma main_try_unfold s :
  main_try env options output manifest tmp fuel s
  = match introspect env (options_python options) with
    | None => (log s [FromBinary (options_python options)],
               Raised (InterpreterResolutionError (options_python options)))
    | Some native =>
        let s1 := log s [FromBinary (options_python options);
                         NewPEXBuilder tmp (custom_interpreter env options native)] in
        match modules manifest with
        | None => (s1, Raised (KeyError "modules"))
        | Some sources =>
            (pex_builder <- add_all env (add_source env) fuel sources
                             (configured env options tmp native) ;;
             res <- getitem "resources" (resources manifest) ;;
             pex_builder <- add_all env (add_resource env) fuel res pex_builder ;;
             build env pex_builder output) s1
        end
    end.
Proof.
  unfold main_try. unfold bind at 1. rewrite from_binary_run.
  destruct (introspect env (options_python options)) as [native|]; [|reflexivity].
  unfold bind at 1. unfold new_PEXBuilder, bind at 1, emit, ret. simpl.
  unfold bind at 1. unfold getitem at 1.
  destruct (modules manifest); unfold log; simpl; rewrite <- app_assoc; reflexivity.
Qed.

End TryBody.

Section TryRuns.

Variable env : Env.
Variable options : Options.
Variables output tmp : string.
Variable manifest : Manifest.
Variable fuel : nat.

Let add_source_def : forall b src dst,
    add_source env b src dst = (emit (AddSource src dst) ;; register env Source b src dst)
  := fun _ _ _ => eq_refl.
Let add_resource_def : forall b src dst,
    add_resource env b src dst = (emit (AddResource src dst) ;; register env Resource b src dst)
  := fun _ _ _ => eq_refl.

(** Whatever the outcome of the body: it logs only the calls expected of
    it, leaves the scratch directories alone, and writes the archive
    exactly when it returns. *)
Lemma main_try_run s s' r :
  main_try env options output manifest tmp fuel s = (s', r) ->
  exists evs,
    trace s' = trace s ++ evs
    /\ Forall (try_event env options output tmp) evs
    /\ scratch_dirs s' = scratch_dirs s
    /\ match r with
       | Returned _ => exists b, written s' = <[output := seal b]> (written s)
                                 /\ Build b output ∈ evs
       | _ => written s' = written s
       end.
Proof.
  rewrite main_try_unfold. intros H.
  destruct (introspect env (options_python options)) as [native|] eqn:Hnative.
  2:{ inversion H; subst. exists [FromBinary (options_python options)].
      split; [reflexivity|]. split; [now repeat constructor|]. now split. }
  simpl in H.
  set (s1 := log s _) in H.
  assert (Hs1 : Forall (try_event env options output tmp)
                  [FromBinary (options_python options);
                   NewPEXBuilder tmp (custom_interpreter env options native)]).
  { repeat constructor. now exists native. }
  destruct (modules manifest) as [sources|].
  2:{ inversion H; subst. eexists. split; [reflexivity|]. split; [exact Hs1|]. now split. }
  unfold bind at 1 in H.
  destruct (add_all env (add_source env) fuel sources (configured env options tmp native) s1)
    as [s2 [b2| |]] eqn:Hloop1.
  2,3: apply (add_all_frame env _ AddSource Source add_source_def) in Hloop1
         as (evs1 & -> & Hevs1); [|done..];
       inversion H; subst; eexists; (split; [unfold s1; rewrite log_log; reflexivity|]);
       (split; [apply Forall_app; split;
                [exact Hs1 | now apply is_registration_try_event]|]); done.
  pose proof Hloop1 as Hret1.
  apply (add_all_frame env _ AddSource Source add_source_def) in Hloop1
    as (evs1 & -> & Hevs1); [|done].
  apply (add_all_returned env _ AddSource Source add_source_def) in Hret1
    as (_ & Hpath1 & Hint1 & Hinfo1 & _).
  unfold bind at 1 in H. unfold getitem at 1 in H.
  destruct (resources manifest) as [res|].
  2:{ inversion H; subst. eexists. split; [unfold s1; rewrite log_log; reflexivity|].
      split; [apply Forall_app; split;
              [exact Hs1 | now apply is_registration_try_event]|]. done. }
  simpl in H. unfold bind at 1 in H.
  destruct (add_all env (add_resource env) fuel res b2 (log s1 evs1))
    as [s3 [b3| |]] eqn:Hloop2.
  2,3: apply (add_all_frame env _ AddResource Resource add_resource_def) in Hloop2
         as (evs2 & -> & Hevs2); [|done..];
       inversion H; subst; eexists;
       (split; [unfold s1; rewrite !log_log; reflexivity|]);
       (split; [apply Forall_app; split; [exact Hs1|];
                apply Forall_app; split; now apply is_registration_try_event|]); done.
  pose proof Hloop2 as Hret2.
  apply (add_all_frame env _ AddResource Resource add_resource_def) in Hloop2
    as (evs2 & -> & Hevs2); [|done].
  apply (add_all_returned env _ AddResource Resource add_resource_def) in Hret2
    as (_ & Hpath2 & Hint2 & Hinfo2 & _).
  rewrite build_run in H.
  assert (Hbuild : try_event env options output tmp (Build b3 output)).
  { simpl. split; [reflexivity|]. split; [now rewrite Hpath2, Hpath1|].
    split; [now rewrite Hinfo2, Hinfo1|]. exists native.
    split; [exact Hnative|]. now rewrite Hint2, Hint1. }
  assert (Hall : Forall (try_event env options output tmp)
                   ([FromBinary (options_python options);
                     NewPEXBuilder tmp (custom_interpreter env options native)]
                    ++ evs1 ++ evs2 ++ [Build b3 output])).
  { apply Forall_app; split; [exact Hs1|].
    apply Forall_app; split; [now apply is_registration_try_event|].
    apply Forall_app; split; [now apply is_registration_try_event|].
    constructor; [exact Hbuild | constructor]. }
  destruct (seal_fails env); inversion H; subst; eexists;
    (split; [unfold s1; simpl; rewrite <- !app_assoc; reflexivity|]);
    (split; [exact Hall|]); simpl; try done.
  split; [reflexivity|]. exists b3. split; [reflexivity|].
  rewrite !elem_of_cons, !elem_of_app, list_elem_of_singleton. tauto.
Qed.

End TryRuns.

Section TryReturned.

Variable env : Env.
Variable options : Options.
Variables output tmp : string.
Variable manifest : Manifest.
Variable fuel : nat.

Let add_source_def : forall b src dst,
    add_source env b src dst = (emit (AddSource src dst) ;; register env Source b src dst)
  := fun _ _ _ => eq_refl.
Let add_resource_def : forall b src dst,
    add_resource env b src dst = (emit (AddResource src dst) ;; register env Resource b src dst)
  := fun _ _ _ => eq_refl.

(** A body that returns has gone through the whole manifest. *)
Lemma main_try_returned ms rs s s' v :
  modules manifest = Some ms -> resources manifest = Some rs ->
  main_try env options output manifest tmp fuel s = (s', Returned v) ->
  exists native b evs1 evs2,
    introspect env (options_python options) = Some native
    /\ trace s' = trace s ++ [FromBinary (options_python options);
                              NewPEXBuilder tmp (custom_interpreter env options native)]
                          ++ evs1 ++ evs2 ++ [Build b output]
    /\ Forall2 (registers env fuel AddSource) ms evs1
    /\ Forall2 (registers env fuel AddResource) rs evs2
    /\ written s' = <[output := seal b]> (written s)
    /\ dom (chroot b) = list_to_set (ms.*1 ++ rs.*1)
    /\ (NoDup (ms.*1 ++ rs.*1) ->
        forall dst src, (dst, src) ∈ ms ++ rs ->
          exists resolved content,
            dereference_symlinks (fs env) fuel src = Some resolved
            /\ file_content (fs env) resolved = Some content
            /\ chroot b !! dst = Some content).
Proof.
  intros Hms Hrs. rewrite main_try_unfold, Hms.
  destruct (introspect env (options_python options)) as [native|]; [|discriminate].
  simpl. set (s1 := log s _). intros H.
  unfold bind at 1 in H.
  destruct (add_all env (add_source env) fuel ms (configured env options tmp native) s1)
    as [s2 [b2| |]] eqn:Hloop1; [|discriminate..].
  apply (add_all_returned env _ AddSource Source add_source_def) in Hloop1
    as ((evs1 & -> & Hevs1) & _ & _ & _ & _ & Hdom1 & _ & Hin1).
  unfold bind at 1 in H. rewrite Hrs in H. simpl in H. unfold bind at 1 in H.
  destruct (add_all env (add_resource env) fuel rs b2 (log s1 evs1))
    as [s3 [b3| |]] eqn:Hloop2; [|discriminate..].
  apply (add_all_returned env _ AddResource Resource add_resource_def) in Hloop2
    as ((evs2 & -> & Hevs2) & _ & _ & _ & _ & Hdom2 & Hother2 & Hin2).
  rewrite build_run in H. destruct (seal_fails env); [discriminate|].
  inversion H; subst. exists native, b3, evs1, evs2.
  split; [reflexivity|]. split; [simpl; now rewrite <- !app_assoc|].
  split; [exact Hevs1|]. split; [exact Hevs2|]. split; [reflexivity|]. split.
  - rewrite Hdom2, Hdom1. simpl. rewrite dom_empty_L, union_empty_l_L.
    now rewrite list_to_set_app_L.
  - intros Hnodup dst src Hin. apply NoDup_app in Hnodup as (Hnd1 & Hdisj & Hnd2).
    apply elem_of_app in Hin as [Hin | Hin].
    + destruct (Hin1 Hnd1 dst src Hin) as (resolved & content & Hres & Hcontent & Hlook).
      exists resolved, content. split; [exact Hres|]. split; [exact Hcontent|].
      rewrite Hother2; [exact Hlook|]. apply Hdisj.
      apply list_elem_of_fmap. now exists (dst, src).
    + now apply Hin2.
Qed.

End TryReturned.

(** *** [main] as a whole *)

Section MainRuns.

Variable env : Env.
Variable cli : CommandLine.
Variable fuel : nat.

Lemma main_usage s :
  length (args cli) <> 1 ->
  main env cli fuel s
  = (log s [ParserError usage_message],
     Raised (SystemExit 2)).
Proof.
  intros Hlen. unfold main.
  destruct (args cli) as [|a [|b l]]; [reflexivity | now destruct Hlen | reflexivity].
Qed.

Lemma main_unfold output s :
  args cli = [output] ->
  main env cli fuel s
  = match stdin_json env with
    | None => (log s [JsonLoad], Raised ValueError)
    | Some m =>
        match mkdtemp_name env with
        | None => (log s [JsonLoad; Mkdtemp], Raised OSError)
        | Some tmp =>
            match main_try env (parse_args env cli) output m tmp fuel (entered s tmp) with
            | (s1, Looping) => (s1, Looping)
            | (s1, r) => (cleaned env s1 tmp, outcome r)
            end
        end
    end.
Proof.
  intros Hargs. unfold main. rewrite Hargs.
  unfold bind at 1. unfold json_load, bind at 1, emit. simpl.
  destruct (stdin_json env) as [m|]; [|reflexivity]. simpl.
  unfold bind at 1. unfold mkdtemp, bind at 1, emit. simpl.
  destruct (mkdtemp_name env) as [tmp|];
    [|unfold log; simpl; now rewrite <- app_assoc].
  simpl. unfold bind at 1. unfold try_finally.
  replace {| trace := (trace s ++ [JsonLoad]) ++ [Mkdtemp];
             scratch_dirs := {[ tmp ]} ∪ scratch_dirs s; written := written s |}
    with (entered s tmp) by (unfold entered; now rewrite <- app_assoc).
  destruct (main_try env (parse_args env cli) output m tmp fuel (entered s tmp))
    as [s1 [[]|e|]]; rewrite ?rmtree_run; reflexivity.
Qed.

(** The body of the [try] does not depend on the fate of the removal. *)
Lemma main_try_with_rmtree_fails v options output m tmp s :
  main_try (with_rmtree_fails v env) options output m tmp fuel s
  = main_try env options output m tmp fuel s.
Proof. reflexivity. Qed.

End MainRuns.

(** Case analysis on the number of positional arguments: exactly one,
    named [output] with [Hargs : args cli = [output]], or any other number,
    with [Hargs : length (args cli) <> 1]. *)
Ltac by_arity cli output Hargs :=
  destruct (decide (length (args cli) = 1)) as [Hargs | Hargs];
  [ destruct (args cli) as [|output [|]] eqn:Harity; try discriminate;
    clear Hargs; rename Harity into Hargs
  | ].

(** Every call [main] logs, from the initial state: the usage error; or the
    reading of the manifest and the creation of the scratch directory,
    then calls of the body of the [try], then the removal. *)
Lemma main_events (env : Env) (cli : CommandLine) (fuel : nat) (e : event) :
  e ∈ trace (main env cli fuel initial).1 ->
  e = ParserError usage_message
  \/ exists output, args cli = [output]
       /\ (e = JsonLoad \/ e = Mkdtemp
           \/ exists tmp, mkdtemp_name env = Some tmp
                /\ (try_event env (parse_args env cli) output tmp e \/ e = Rmtree tmp true)).
Proof.
  by_arity cli output Hargs.
  2:{ rewrite main_usage by exact Hargs. simpl. intros He.
      apply list_elem_of_singleton in He. now left. }
  intros He. right. exists output. split; [reflexivity|].
  rewrite (main_unfold env cli fuel output initial Hargs) in He.
  destruct (stdin_json env) as [m|].
  2:{ simpl in He. apply list_elem_of_singleton in He. now left. }
  destruct (mkdtemp_name env) as [tmp|] eqn:Htmp.
  2:{ simpl in He. rewrite !elem_of_cons in He. destruct He as [He|[He|He]]; [tauto..|].
      now apply elem_of_nil in He. }
  destruct (main_try env (parse_args env cli) output m tmp fuel (entered initial tmp))
    as [s1 r1] eqn:Htry.
  apply main_try_run in Htry as (evs & Htrace & Hevs & _).
  assert (Hin : e ∈ trace s1 ++ [Rmtree tmp true] -> e = JsonLoad \/ e = Mkdtemp
                \/ exists tmp0, Some tmp = Some tmp0
                     /\ (try_event env (parse_args env cli) output tmp0 e
                         \/ e = Rmtree tmp0 true)).
  { rewrite Htrace. simpl. rewrite !elem_of_cons, !elem_of_app, list_elem_of_singleton.
    intros [?|[?|[Hin|?]]]; [tauto | tauto | | ].
    - right. right. exists tmp. split; [reflexivity|]. left.
      rewrite Forall_forall in Hevs. now apply Hevs.
    - right. right. exists tmp. split; [reflexivity|]. now right. }
  destruct r1 as [[]|ex|]; simpl in He.
  - now apply Hin.
  - now apply Hin.
  - apply Hin. apply elem_of_app. now left.
Qed.

(** With every source of the manifest resolved within [fuel] iterations,
    [main] exits. *)
Lemma main_exits (env : Env) (cli : CommandLine) (fuel : nat) :
  (forall m it, stdin_json env = Some m ->
                it ∈ default [] (modules m) ++ default [] (resources m) ->
                is_Some (dereference_symlinks (fs env) fuel it.2)) ->
  forall s, (main env cli fuel s).2 <> Looping.
Proof.
  intros Hres s.
  by_arity cli output Hargs; [|now rewrite main_usage by exact Hargs].
  rewrite (main_unfold env cli fuel output s Hargs).
  destruct (stdin_json env) as [m|]; [|discriminate].
  destruct (mkdtemp_name env) as [tmp|]; [|discriminate].
  specialize (Hres m).
  assert (Htry : (main_try env (parse_args env cli) output m tmp fuel (entered s tmp)).2
                 <> Looping).
  { rewrite main_try_unfold.
    destruct (introspect env (options_python (parse_args env cli))); [|discriminate].
    simpl. destruct (modules m) as [ms|]; [|discriminate]. simpl in Hres.
    unfold bind at 1.
    match goal with |- context [add_all env (add_source env) fuel ms ?b ?s0] =>
      pose proof (add_all_exits env (add_source env) AddSource Source
                    (fun _ _ _ => eq_refl) fuel ms) as Hloop1;
      specialize (Hloop1 ltac:(apply Forall_forall; intros it Hit; apply Hres;
                                [reflexivity | apply elem_of_app; now left]) b s0);
      destruct (add_all env (add_source env) fuel ms b s0) as [s2 [b2| |]]
    end; [|discriminate|now destruct Hloop1].
    unfold bind at 1. destruct (resources m) as [rs|]; [|discriminate]. simpl in *.
    unfold bind at 1.
    pose proof (add_all_exits env (add_resource env) AddResource Resource
                  (fun _ _ _ => eq_refl) fuel rs) as Hloop2.
    specialize (Hloop2 ltac:(apply Forall_forall; intros it Hit; apply Hres;
                              [reflexivity | apply elem_of_app; now right]) b2 s2).
    destruct (add_all env (add_resource env) fuel rs b2 s2) as [s3 [b3| |]];
      [|discriminate|now destruct Hloop2].
    rewrite build_run. destruct (seal_fails env); discriminate. }
  destruct (main_try env (parse_args env cli) output m tmp fuel (entered s tmp))
    as [s1 [[]|ex|]]; simpl in *; [discriminate | discriminate | now destruct Htry].
Qed.

(** Finitely many calls that return share an iteration bound. *)
Lemma common_fuel (fs0 : FileSystem) (l : list (string * string)) :
  Forall (fun it => terminates fs0 it.2) l ->
  exists fuel, Forall (fun it => is_Some (dereference_symlinks fs0 fuel it.2)) l.
Proof.
  induction 1 as [|it l (n & r & Hr) _ (m & IH)]; [exists 0; constructor|].
  exists (n `max` m). constructor.
  - exists r. eapply deref_fuel_mono; [exact Hr | lia].
  - eapply Forall_impl; [exact IH|]. intros it' [r' Hr']. exists r'.
    eapply deref_fuel_mono; [exact Hr' | lia].
Qed.

(** When [dereference_symlinks] returns on every source of the manifest,
    some number of iterations lets [main] exit. *)
Lemma main_exits_on_finite_chains (env : Env) (cli : CommandLine) :
  (forall m it, stdin_json env = Some m ->
                it ∈ default [] (modules m) ++ default [] (resources m) ->
                terminates (fs env) it.2) ->
  exists fuel, forall s, (main env cli fuel s).2 <> Looping.
Proof.
  intros Hterm. destruct (stdin_json env) as [m|] eqn:Hm.
  - destruct (common_fuel (fs env) (default [] (modules m) ++ default [] (resources m)))
      as [fuel Hfuel].
    { apply Forall_forall. intros it Hit. now apply (Hterm m). }
    exists fuel. apply main_exits. rewrite Hm. intros m' it [= <-] Hit.
    rewrite Forall_forall in Hfuel. now apply Hfuel.
  - exists 0. apply main_exits. rewrite Hm. discriminate.
Qed.

(** When the interpreter can be introspected the builder is created,
    whatever happens afterwards, and however many iterations are allowed. *)
Lemma main_try_creates_builder (env : Env) (options : Options) (output tmp : string)
    (m : Manifest) (fuel : nat) (s : State) (native : PythonInterpreter) :
  introspect env (options_python options) = Some native ->
  exists evs,
    trace (main_try env options output m tmp fuel s).1
    = trace s ++ [FromBinary (options_python options);
                  NewPEXBuilder tmp (custom_interpreter env options native)] ++ evs.
Proof.
  intros Hnative. rewrite main_try_unfold, Hnative. simpl.
  destruct (modules m) as [ms|]; [|now exists []].
  set (s1 := log s _). unfold bind at 1.
  destruct (add_all env (add_source env) fuel ms (configured env options tmp native) s1)
    as [s2 r2] eqn:Hloop1.
  apply (add_all_frame env _ AddSource Source (fun _ _ _ => eq_refl)) in Hloop1
    as (evs1 & -> & _); [|done].
  destruct r2 as [b2| |]; [|exists evs1; simpl; now rewrite <- app_assoc..].
  unfold bind at 1.
  destruct (resources m) as [rs|]; [|exists evs1; simpl; now rewrite <- app_assoc].
  simpl. unfold bind at 1.
  destruct (add_all env (add_resource env) fuel rs b2 (log s1 evs1)) as [s3 r3] eqn:Hloop2.
  apply (add_all_frame env _ AddResource Resource (fun _ _ _ => eq_refl)) in Hloop2
    as (evs2 & -> & _); [|done].
  destruct r3 as [b3| |]; [|exists (evs1 ++ evs2); simpl; now rewrite <- !app_assoc..].
  rewrite build_run.
  destruct (seal_fails env); exists (evs1 ++ evs2 ++ [Build b3 output]);
    simpl; now rewrite <- !app_assoc.
Qed.

Lemma main_creates_builder (env : Env) (cli : CommandLine) (fuel : nat)
    (output tmp : string) (m : Manifest) (native : PythonInterpreter) :
  args cli = [output] -> stdin_json env = Some m -> mkdtemp_name env = Some tmp ->
  introspect env (default (sys_executable env) (given_python cli)) = Some native ->
  NewPEXBuilder tmp (custom_interpreter env (parse_args env cli) native)
    ∈ trace (main env cli fuel initial).1.
Proof.
  intros Hargs Hm Htmp Hnative.
  rewrite (main_unfold env cli fuel output initial Hargs), Hm, Htmp.
  destruct (main_try_creates_builder env (parse_args env cli) output tmp m fuel
              (entered initial tmp) native Hnative) as [evs Hevs].
  destruct (main_try env (parse_args env cli) output m tmp fuel (entered initial tmp))
    as [s1 [[]|ex|]]; simpl in *; rewrite Hevs;
    repeat (rewrite elem_of_app || rewrite elem_of_cons); tauto.
Qed.

(** * The claims about [main] *)

(** After [parse_args] has returned: when the positional [output] argument
    is absent, or more than one
    positional argument is given, [main] reports the usage error and the
    process exits with status 2, which is not zero; the only call it has
    made is [parser.error]: the manifest is not read, no scratch directory
    is created and no archive is written. *)
Theorem main_usage_error (env : Env) (cli : CommandLine) (fuel : nat) :
  length (args cli) <> 1 ->
  main env cli fuel initial
  = ({| trace := [ParserError usage_message]; scratch_dirs := ∅; written := ∅ |},
     Raised (SystemExit 2))
  /\ exit_status (main env cli fuel initial).2 = Some 2%Z
  /\ (JsonLoad ∉ trace (main env cli fuel initial).1)
  /\ (Mkdtemp ∉ trace (main env cli fuel initial).1)
  /\ (forall b output, Build b output ∉ trace (main env cli fuel initial).1).
Proof.
  intros Hlen. rewrite main_usage by exact Hlen. simpl.
  split; [reflexivity|]. split; [reflexivity|].
  split; [|split]; [| |intros b output]; intros Hin;
    apply list_elem_of_singleton in Hin; discriminate.
Qed.

Lemma main_usage_error_witness :
  main sample_env (cli_of ["a.pex"; "b.pex"]) 0 initial
  = ({| trace := [ParserError usage_message]; scratch_dirs := ∅; written := ∅ |},
     Raised (SystemExit 2))
  /\ exit_status (main sample_env (cli_of ["a.pex"; "b.pex"]) 0 initial).2 = Some 2%Z
  /\ (JsonLoad ∉ trace (main sample_env (cli_of ["a.pex"; "b.pex"]) 0 initial).1)
  /\ (Mkdtemp ∉ trace (main sample_env (cli_of ["a.pex"; "b.pex"]) 0 initial).1)
  /\ (forall b output,
        Build b output ∉ trace (main sample_env (cli_of ["a.pex"; "b.pex"]) 0 initial).1).
Proof.
  apply (main_usage_error sample_env (cli_of ["a.pex"; "b.pex"]) 0).
  simpl. lia.
Defined.

(** An archive that [main] has written is what [build] sealed, at the path
    [build] was called with. *)
Lemma main_written (env : Env) (cli : CommandLine) (fuel : nat) (o : string) (a : Archive) :
  written (main env cli fuel initial).1 !! o = Some a ->
  exists b, a = seal b /\ Build b o ∈ trace (main env cli fuel initial).1.
Proof.
  by_arity cli output Hargs; [|now rewrite main_usage by exact Hargs].
  rewrite (main_unfold env cli fuel output initial Hargs).
  destruct (stdin_json env) as [m|]; [|discriminate].
  destruct (mkdtemp_name env) as [tmp|]; [|discriminate].
  destruct (main_try env (parse_args env cli) output m tmp fuel (entered initial tmp))
    as [s1 r1] eqn:Htry.
  apply main_try_run in Htry as (evs & Htrace & _ & _ & Hw).
  destruct r1 as [[]|ex|]; simpl; try (rewrite Hw; discriminate).
  destruct Hw as (b & -> & Hb). simpl. intros Hlook.
  apply lookup_insert_Some in Hlook as [[<- <-] | [_ Hlook]]; [|discriminate].
  exists b. split; [reflexivity|]. rewrite Htrace, !elem_of_app. tauto.
Qed.

(** The builder of a [build] call is configured. *)
Lemma build_event_configured
    (env : Env) (cli : CommandLine) (fuel : nat) (b : PEXBuilder) (output : string) :
  Build b output ∈ trace (main env cli fuel initial).1 ->
  info b = {| zip_safe := true;
              entry_point := Some (default "__main__" (given_entry_point cli)) |}
  /\ args cli = [output].
Proof.
  intros Hin. apply main_events in Hin as [Hin | (out & Hargs & Hin)]; [discriminate|].
  destruct Hin as [Hin | [Hin | (tmp & _ & [Hin | Hin])]]; try discriminate.
  simpl in Hin. destruct Hin as (-> & _ & Hinfo & _). now split.
Qed.

(** C7: when [main] calls [build], the builder it calls it on already has
    its metadata set: [zip_safe] is true and [entry_point] is the value of
    [--entry-point], which is [__main__] when the option is not given; and
    an archive that is written carries this metadata. *)
Theorem main_configures_before_build
    (env : Env) (cli : CommandLine) (fuel : nat) (b : PEXBuilder) (output : string) :
  Build b output ∈ trace (main env cli fuel initial).1 ->
  zip_safe (info b) = true
  /\ entry_point (info b) = Some (default "__main__" (given_entry_point cli))
  /\ (given_entry_point cli = None -> entry_point (info b) = Some "__main__")
  /\ args cli = [output]
  /\ (forall o a, written (main env cli fuel initial).1 !! o = Some a ->
        archive_info a = info b).
Proof.
  intros Hin. destruct (build_event_configured env cli fuel b output Hin) as [Hinfo Hargs].
  rewrite Hinfo. simpl.
  split; [reflexivity|]. split; [reflexivity|]. split; [now intros ->|].
  split; [exact Hargs|]. intros o a Ha.
  apply main_written in Ha as (b' & -> & Hb').
  destruct (build_event_configured env cli fuel b' o Hb') as [Hinfo' _].
  simpl. exact Hinfo'.
Qed.

Lemma main_configures_before_build_witness :
  zip_safe (info sample_builder) = true
  /\ entry_point (info sample_builder)
     = Some (default "__main__" (given_entry_point (cli_of ["out.pex"])))
  /\ (given_entry_point (cli_of ["out.pex"]) = None ->
      entry_point (info sample_builder) = Some "__main__")
  /\ args (cli_of ["out.pex"]) = ["out.pex"]
  /\ (forall o a,
        written (main sample_env (cli_of ["out.pex"]) 1 initial).1 !! o = Some a ->
        archive_info a = info sample_builder).
Proof.
  apply (main_configures_before_build sample_env (cli_of ["out.pex"]) 1).
  rewrite sample_run_trace. rewrite !elem_of_cons. tauto.
Defined.

(** C8: the interpreter [main] hands to the PEX builder has for executable
    the value of [--python], which is the running interpreter when the
    option is not given; for identity the one that introspecting this
    executable reports; and for table of extras the single entry that maps
    (setuptools, 1.0) to [third-party/py/setuptools] under the repository
    root: whatever the introspected interpreter declares for setuptools, or
    anything else, is not kept. *)
Theorem main_interpreter_descriptor
    (env : Env) (cli : CommandLine) (fuel : nat) (dir : string) (i : PythonInterpreter) :
  NewPEXBuilder dir i ∈ trace (main env cli fuel initial).1 ->
  binary i = default (sys_executable env) (given_python cli)
  /\ (exists native, introspect env (binary i) = Some native /\ identity i = identity native)
  /\ extras i = {[ ("setuptools", "1.0")
                   := join (BUCK_ROOT (script_file env)) "third-party/py/setuptools" ]}
  /\ extras i !! ("setuptools", "1.0")
     = Some (join (BUCK_ROOT (script_file env)) "third-party/py/setuptools")
  /\ (forall name version, (name, version) <> ("setuptools", "1.0") ->
        extras i !! (name, version) = None).
Proof.
  intros Hin. apply main_events in Hin as [Hin | (out & Hargs & Hin)]; [discriminate|].
  destruct Hin as [Hin | [Hin | (tmp & _ & [Hin | Hin])]]; try discriminate.
  simpl in Hin. destruct Hin as (_ & native & Hnative & ->). simpl.
  split; [reflexivity|]. split; [now exists native|]. split; [reflexivity|].
  split; [apply lookup_singleton_eq|].
  intros name version Hne. now apply lookup_singleton_ne.
Qed.

Lemma main_interpreter_descriptor_witness :
  binary (interpreter sample_builder)
  = default (sys_executable sample_env) (given_python (cli_of ["out.pex"]))
  /\ (exists native, introspect sample_env (binary (interpreter sample_builder)) = Some native
                     /\ identity (interpreter sample_builder) = identity native)
  /\ extras (interpreter sample_builder)
     = {[ ("setuptools", "1.0")
          := join (BUCK_ROOT (script_file sample_env)) "third-party/py/setuptools" ]}
  /\ extras (interpreter sample_builder) !! ("setuptools", "1.0")
     = Some (join (BUCK_ROOT (script_file sample_env)) "third-party/py/setuptools")
  /\ (forall name version, (name, version) <> ("setuptools", "1.0") ->
        extras (interpreter sample_builder) !! (name, version) = None).
Proof.
  apply (main_interpreter_descriptor sample_env (cli_of ["out.pex"]) 1 "/tmp/tmpAb12").
  rewrite sample_run_trace. rewrite !elem_of_cons. tauto.
Defined.

(** A body that returns found both keys in the manifest, and no
    destination that escapes the workspace. *)
Lemma main_try_returned_keys (env : Env) (options : Options) (output tmp : string)
    (m : Manifest) (fuel : nat) (s s' : State) (v : unit) :
  main_try env options output m tmp fuel s = (s', Returned v) ->
  exists ms rs, modules m = Some ms /\ resources m = Some rs
                /\ Forall (fun it => escapes_root it.1 = false) (ms ++ rs).
Proof.
  rewrite main_try_unfold.
  destruct (introspect env (options_python options)) as [native|]; [|discriminate].
  simpl. destruct (modules m) as [ms|]; [|discriminate].
  set (s1 := log s _). intros H. unfold bind at 1 in H.
  destruct (add_all env (add_source env) fuel ms (configured env options tmp native) s1)
    as [s2 [b2| |]] eqn:Hloop1; [|discriminate..].
  apply (add_all_returned env _ AddSource Source (fun _ _ _ => eq_refl)) in Hloop1
    as (_ & _ & _ & _ & Hok1 & _).
  unfold bind at 1 in H. destruct (resources m) as [rs|]; [|discriminate].
  simpl in H. unfold bind at 1 in H.
  destruct (add_all env (add_resource env) fuel rs b2 s2)
    as [s3 [b3| |]] eqn:Hloop2; [|discriminate..].
  apply (add_all_returned env _ AddResource Resource (fun _ _ _ => eq_refl)) in Hloop2
    as (_ & _ & _ & _ & Hok2 & _).
  exists ms, rs. split; [reflexivity|]. split; [reflexivity|].
  apply Forall_app. now split.
Qed.

(** C1: when a run of [main] succeeds on a manifest whose [modules] and
    [resources] have distinct destinations, within each collection and
    across the two, the calls it has made are, in this order: the reading
    of the manifest, the creation of the scratch directory, the
    introspection of the interpreter, the creation of the builder, one
    [add_source] for each module and then one [add_resource] for each
    resource, each with the source resolved by [dereference_symlinks] and
    the destination of the entry, then [build] and the removal of the
    scratch directory; and the archive written at [output] has for paths
    exactly the destinations of the manifest, each with the content of its
    resolved source.  The collections need not be non-empty. *)
Theorem main_archives_manifest
    (env : Env) (cli : CommandLine) (fuel : nat) (output : string)
    (ms rs : list (string * string)) (s' : State) (v : option Z) :
  args cli = [output] ->
  stdin_json env = Some {| modules := Some ms; resources := Some rs |} ->
  NoDup ms.*1 -> NoDup rs.*1 -> (forall d, d ∈ ms.*1 -> d ∉ rs.*1) ->
  main env cli fuel initial = (s', Returned v) ->
  exists tmp native b evs1 evs2 a,
    trace s' = [JsonLoad; Mkdtemp;
                FromBinary (default (sys_executable env) (given_python cli));
                NewPEXBuilder tmp (custom_interpreter env (parse_args env cli) native)]
               ++ evs1 ++ evs2 ++ [Build b output; Rmtree tmp true]
    /\ Forall2 (registers env fuel AddSource) ms evs1
    /\ Forall2 (registers env fuel AddResource) rs evs2
    /\ written s' !! output = Some a
    /\ a = seal b
    /\ dom (archive_files a) = list_to_set (ms.*1 ++ rs.*1)
    /\ (forall dst src, (dst, src) ∈ ms ++ rs ->
          exists resolved content,
            dereference_symlinks (fs env) fuel src = Some resolved
            /\ file_content (fs env) resolved = Some content
            /\ archive_files a !! dst = Some content).
Proof.
  intros Hargs Hm Hnd1 Hnd2 Hdisj. rewrite (main_unfold env cli fuel output initial Hargs), Hm.
  destruct (mkdtemp_name env) as [tmp|]; [|discriminate].
  destruct (main_try env (parse_args env cli) output
              {| modules := Some ms; resources := Some rs |} tmp fuel (entered initial tmp))
    as [s1 [[]|ex|]] eqn:Htry; simpl; [|discriminate..].
  intros [= <- <-].
  apply (main_try_returned env _ output tmp _ fuel ms rs) in Htry
    as (native & b & evs1 & evs2 & _ & Htrace & Hevs1 & Hevs2 & Hw & Hdom & Hcontent);
    [|reflexivity..].
  exists tmp, native, b, evs1, evs2, (seal b).
  split; [simpl; rewrite Htrace; simpl; now rewrite <- !app_assoc|].
  split; [exact Hevs1|]. split; [exact Hevs2|].
  split; [simpl; rewrite Hw; apply lookup_insert_eq|].
  split; [reflexivity|]. split; [exact Hdom|].
  apply Hcontent. apply NoDup_app. now repeat split.
Qed.

Lemma main_archives_manifest_witness :
  exists tmp native b evs1 evs2 a,
    trace (main sample_env (cli_of ["out.pex"]) 1 initial).1
    = [JsonLoad; Mkdtemp;
       FromBinary (default (sys_executable sample_env) (given_python (cli_of ["out.pex"])));
       NewPEXBuilder tmp (custom_interpreter sample_env
                            (parse_args sample_env (cli_of ["out.pex"])) native)]
      ++ evs1 ++ evs2 ++ [Build b "out.pex"; Rmtree tmp true]
    /\ Forall2 (registers sample_env 1 AddSource) [("app/main.py", "/src/main.py")] evs1
    /\ Forall2 (registers sample_env 1 AddResource) [("app/data.txt", "/src/data.txt")] evs2
    /\ written (main sample_env (cli_of ["out.pex"]) 1 initial).1 !! "out.pex" = Some a
    /\ a = seal b
    /\ dom (archive_files a)
       = list_to_set ([("app/main.py", "/src/main.py")].*1
                      ++ [("app/data.txt", "/src/data.txt")].*1)
    /\ (forall dst src,
          (dst, src) ∈ [("app/main.py", "/src/main.py")] ++ [("app/data.txt", "/src/data.txt")] ->
          exists resolved content,
            dereference_symlinks (fs sample_env) 1 src = Some resolved
            /\ file_content (fs sample_env) resolved = Some content
            /\ archive_files a !! dst = Some content).
Proof.
  apply (main_archives_manifest sample_env (cli_of ["out.pex"]) 1 "out.pex"
           [("app/main.py", "/src/main.py")] [("app/data.txt", "/src/data.txt")]
           (main sample_env (cli_of ["out.pex"]) 1 initial).1 None).
  - reflexivity.
  - reflexivity.
  - apply NoDup_singleton.
  - apply NoDup_singleton.
  - intros d Hd Hd'. simpl in Hd, Hd'.
    apply list_elem_of_singleton in Hd. apply list_elem_of_singleton in Hd'.
    rewrite Hd in Hd'. discriminate.
  - rewrite <- sample_run_result. apply surjective_pairing.
Defined.

(** C4: once the scratch directory is created, every run of [main] that
    exits, the body of the [try] having returned or raised anything, ends
    with the call [shutil.rmtree(tmp_dir, True)]; the outcome of [main] is
    the outcome of the body, whether the removal succeeds or fails: with
    the other fate for the removal, the outcome, the calls made and the
    archives written are the same.  When the removal succeeds the scratch
    directory is gone. *)
Theorem main_always_removes_scratch_dir
    (env : Env) (cli : CommandLine) (fuel : nat) (output : string) (m : Manifest)
    (tmp : string) (s' : State) (r : result (option Z)) :
  args cli = [output] -> stdin_json env = Some m -> mkdtemp_name env = Some tmp ->
  main env cli fuel initial = (s', r) -> r <> Looping ->
  exists s1 r1,
    main_try env (parse_args env cli) output m tmp fuel (entered initial tmp) = (s1, r1)
    /\ r = outcome r1
    /\ trace s' = trace s1 ++ [Rmtree tmp true]
    /\ last (trace s') = Some (Rmtree tmp true)
    /\ written s' = written s1
    /\ (rmtree_fails env = false -> tmp ∉ scratch_dirs s')
    /\ (forall fate,
          (main (with_rmtree_fails fate env) cli fuel initial).2 = r
          /\ trace (main (with_rmtree_fails fate env) cli fuel initial).1 = trace s'
          /\ written (main (with_rmtree_fails fate env) cli fuel initial).1 = written s').
Proof.
  intros Hargs Hm Htmp Hrun Hexit.
  rewrite (main_unfold env cli fuel output initial Hargs), Hm, Htmp in Hrun.
  destruct (main_try env (parse_args env cli) output m tmp fuel (entered initial tmp))
    as [s1 r1] eqn:Htry.
  assert (Hr1 : r1 <> Looping).
  { intros ->. inversion Hrun; subst. now apply Hexit. }
  assert (Hrun' : (cleaned env s1 tmp, outcome r1) = (s', r))
    by (destruct r1 as [[]|ex|]; [exact Hrun | exact Hrun | now destruct Hr1]).
  inversion Hrun'; subst. clear Hrun Hrun'.
  exists s1, r1. split; [reflexivity|]. split; [reflexivity|]. split; [reflexivity|].
  split; [apply last_snoc|]. split; [reflexivity|]. split.
  - intros Hok. simpl. rewrite Hok. apply not_elem_of_difference. right.
    now apply elem_of_singleton.
  - intros fate.
    rewrite (main_unfold (with_rmtree_fails fate env) cli fuel output initial Hargs).
    simpl. rewrite Hm, Htmp.
    change (main_try (with_rmtree_fails fate env) (parse_args (with_rmtree_fails fate env) cli)
              output m tmp fuel (entered initial tmp))
      with (main_try env (parse_args env cli) output m tmp fuel (entered initial tmp)).
    rewrite Htry. destruct r1 as [[]|ex|]; [now repeat split.. | now destruct Hr1].
Qed.

Lemma main_always_removes_scratch_dir_witness :
  exists s1 r1,
    main_try failing_env (parse_args failing_env (cli_of ["out.pex"])) "out.pex"
      sample_manifest "/tmp/tmpAb12" 1 (entered initial "/tmp/tmpAb12") = (s1, r1)
    /\ Raised BuildError = outcome r1
    /\ trace (main failing_env (cli_of ["out.pex"]) 1 initial).1
       = trace s1 ++ [Rmtree "/tmp/tmpAb12" true]
    /\ last (trace (main failing_env (cli_of ["out.pex"]) 1 initial).1)
       = Some (Rmtree "/tmp/tmpAb12" true)
    /\ written (main failing_env (cli_of ["out.pex"]) 1 initial).1 = written s1
    /\ (rmtree_fails failing_env = false ->
        "/tmp/tmpAb12" ∉ scratch_dirs (main failing_env (cli_of ["out.pex"]) 1 initial).1)
    /\ (forall fate,
          (main (with_rmtree_fails fate failing_env) (cli_of ["out.pex"]) 1 initial).2
          = Raised BuildError
          /\ trace (main (with_rmtree_fails fate failing_env) (cli_of ["out.pex"]) 1 initial).1
             = trace (main failing_env (cli_of ["out.pex"]) 1 initial).1
          /\ written (main (with_rmtree_fails fate failing_env) (cli_of ["out.pex"]) 1 initial).1
             = written (main failing_env (cli_of ["out.pex"]) 1 initial).1).
Proof.
  apply (main_always_removes_scratch_dir failing_env (cli_of ["out.pex"]) 1 "out.pex"
           sample_manifest "/tmp/tmpAb12"
           (main failing_env (cli_of ["out.pex"]) 1 initial).1 (Raised BuildError)).
  - reflexivity.
  - reflexivity.
  - reflexivity.
  - transitivity ((main failing_env (cli_of ["out.pex"]) 1 initial).1,
                  (main failing_env (cli_of ["out.pex"]) 1 initial).2);
      [apply surjective_pairing | f_equal; vm_compute; reflexivity].
  - discriminate.
Defined.

(** C6: a destination that escapes the workspace root through [..] is
    rejected by [add_source] and by [add_resource]: the call raises and
    nothing is placed; and [main], which hands the destinations of the
    manifest to them unchanged, does not succeed on a manifest that has
    such a destination, and writes no archive. *)
Theorem escaping_destination_rejected (env : Env) (dst : string) :
  escapes_root dst = true ->
  (forall b src s,
     add_source env b src dst s
     = (log s [AddSource src dst], Raised (EscapingDestination dst)))
  /\ (forall b src s,
        add_resource env b src dst s
        = (log s [AddResource src dst], Raised (EscapingDestination dst)))
  /\ (forall cli fuel m src,
        stdin_json env = Some m ->
        (dst, src) ∈ default [] (modules m) ++ default [] (resources m) ->
        (forall v, (main env cli fuel initial).2 <> Returned v)
        /\ written (main env cli fuel initial).1 = ∅).
Proof.
  intros Hesc. split; [|split].
  - intros b src s. unfold add_source, bind, emit. simpl.
    now rewrite register_run, Hesc.
  - intros b src s. unfold add_resource, bind, emit. simpl.
    now rewrite register_run, Hesc.
  - intros cli fuel m src Hm Hin.
    by_arity cli output Hargs; [|now rewrite main_usage by exact Hargs].
    rewrite (main_unfold env cli fuel output initial Hargs), Hm.
    destruct (mkdtemp_name env) as [tmp|]; [|now split].
    destruct (main_try env (parse_args env cli) output m tmp fuel (entered initial tmp))
      as [s1 r1] eqn:Htry.
    destruct r1 as [[]|ex|].
    + apply main_try_returned_keys in Htry as (ms & rs & Hms & Hrs & Hok).
      rewrite Hms, Hrs in Hin. simpl in Hin.
      rewrite Forall_forall in Hok. specialize (Hok _ Hin). simpl in Hok. congruence.
    + apply main_try_run in Htry as (_ & _ & _ & _ & Hw). now split.
    + apply main_try_run in Htry as (_ & _ & _ & _ & Hw). now split.
Qed.

Lemma escaping_destination_rejected_witness :
  (forall b src s,
     add_source (env_with (Some escaping_manifest) false false) b src "../../etc/cron.d/job" s
     = (log s [AddSource src "../../etc/cron.d/job"],
        Raised (EscapingDestination "../../etc/cron.d/job")))
  /\ (forall b src s,
        add_resource (env_with (Some escaping_manifest) false false) b src
          "../../etc/cron.d/job" s
        = (log s [AddResource src "../../etc/cron.d/job"],
           Raised (EscapingDestination "../../etc/cron.d/job")))
  /\ (forall cli fuel m src,
        stdin_json (env_with (Some escaping_manifest) false false) = Some m ->
        ("../../etc/cron.d/job", src) ∈ default [] (modules m) ++ default [] (resources m) ->
        (forall v, (main (env_with (Some escaping_manifest) false false) cli fuel initial).2
                   <> Returned v)
        /\ written (main (env_with (Some escaping_manifest) false false) cli fuel initial).1
           = ∅).
Proof.
  apply (escaping_destination_rejected (env_with (Some escaping_manifest) false false)
           "../../etc/cron.d/job").
  reflexivity.
Defined.


(** * Further properties *)

(** ** Splitting and joining on the separator *)

Lemma is_sep_eq c : is_sep c = true -> c = sep.
Proof. unfold is_sep. apply Ascii.eqb_eq. Qed.

Lemma split_nonempty s : split s <> [].
Proof.
  destruct s as [|c r]; simpl; [discriminate|].
  destruct (is_sep c); [discriminate|]. destruct (split r); discriminate.
Qed.

Lemma split_no_sep s : has_sep s = false -> split s = [s].
Proof.
  induction s as [|c r IH]; simpl; [reflexivity|].
  intros H. apply orb_false_iff in H as [Hc Hr]. rewrite Hc, (IH Hr). reflexivity.
Qed.

Lemma split_app_sep a b : split (a +:+ String sep b) = split a ++ split b.
Proof.
  induction a as [|c a IH]; simpl; [reflexivity|].
  rewrite IH. destruct (is_sep c); [reflexivity|].
  pose proof (split_nonempty a) as Hne. destruct (split a); [now destruct Hne | reflexivity].
Qed.

(** ['/'.join(s.split('/'))] is [s]. *)
Lemma sep_join_split s : sep_join (split s) = s.
Proof.
  induction s as [|c r IH]; [reflexivity|]. simpl.
  pose proof (split_nonempty r) as Hne.
  destruct (is_sep c) eqn:Hc.
  - apply is_sep_eq in Hc. subst c.
    destruct (split r) as [|h t]; [now destruct Hne|].
    change (sep_join ("" :: h :: t)) with (String sep (sep_join (h :: t))). now rewrite IH.
  - destruct (split r) as [|h [|y t]]; [now destruct Hne | |].
    + simpl in *. now rewrite IH.
    + change (sep_join (String c h :: y :: t))
        with (String c (h +:+ String sep (sep_join (y :: t)))).
      change (sep_join (h :: y :: t)) with (h +:+ String sep (sep_join (y :: t))) in IH.
      now rewrite IH.
Qed.

(** Splitting a join of separator-free components gives them back. *)
Lemma split_sep_join l :
  l <> [] -> Forall (fun c => has_sep c = false) l -> split (sep_join l) = l.
Proof.
  induction l as [|x [|y r] IH]; intros Hne Hfree; [now destruct Hne | |].
  - simpl. apply split_no_sep. now inversion Hfree.
  - change (sep_join (x :: y :: r)) with (x +:+ String sep (sep_join (y :: r))).
    inversion Hfree as [|? ? Hx Hrest]; subst.
    rewrite split_app_sep, (split_no_sep x Hx), IH by (discriminate || assumption).
    reflexivity.
Qed.

Lemma sep_join_empty l : sep_join l = "" -> l = [] \/ l = [""].
Proof.
  destruct l as [|x [|y r]]; simpl; [now left | intros ->; now right |].
  destruct x; discriminate.
Qed.

Lemma split_head_isabs s h t :
  split s = h :: t -> t <> [] -> (h = "" <-> isabs s = true).
Proof.
  destruct s as [|c r]; simpl.
  - intros [= <- <-] Ht. now destruct Ht.
  - destruct (is_sep c) eqn:Hc.
    + intros [= <- <-] _. tauto.
    + destruct (split r); intros [= <- <-] _; split; discriminate.
Qed.

(** X1: for a script path made of any root, a separator, and six
    components joined by separators, none of which contains a separator,
    [BUCK_ROOT] is the root, as it was written. *)
Theorem BUCK_ROOT_strips_six_components (root : string) (comps : list string) :
  length comps = 6 -> Forall (fun c => has_sep c = false) comps ->
  BUCK_ROOT (root +:+ String sep (sep_join comps)) = root.
Proof.
  intros Hlen Hfree. unfold BUCK_ROOT, drop_last.
  rewrite split_app_sep, split_sep_join; [|destruct comps; [discriminate Hlen | discriminate]
                                          |exact Hfree].
  rewrite take_app_length' by (rewrite length_app; lia).
  apply sep_join_split.
Qed.

Lemma BUCK_ROOT_strips_six_components_witness :
  BUCK_ROOT ("/home/dev/buck"
             +:+ String sep (sep_join ["src"; "com"; "facebook"; "buck"; "python"; "pex.py"]))
  = "/home/dev/buck".
Proof.
  apply (BUCK_ROOT_strips_six_components "/home/dev/buck"
           ["src"; "com"; "facebook"; "buck"; "python"; "pex.py"]).
  - reflexivity.
  - repeat constructor.
Defined.

(** X2: [BUCK_ROOT] is the empty string exactly when the script path has
    at most six components, or has seven and starts with the separator (a
    script six directories below the file-system root): the bundled
    directories are then looked up relative to the working directory. *)
Theorem BUCK_ROOT_empty_iff (file : string) :
  (BUCK_ROOT file = ""
   <-> length (split file) <= 6 \/ (length (split file) = 7 /\ isabs file = true))
  /\ (BUCK_ROOT file = "" -> setuptools_dir file = "third-party/py/setuptools").
Proof.
  split; [|unfold setuptools_dir; now intros ->].
  unfold BUCK_ROOT, drop_last. split.
  - intros H. apply sep_join_empty in H as [H | H].
    + left. apply (f_equal length) in H. rewrite length_take in H. simpl in H. lia.
    + pose proof H as Hlen. apply (f_equal length) in Hlen.
      rewrite length_take in Hlen. simpl in Hlen. right.
      assert (Hseven : length (split file) = 7) by lia. split; [exact Hseven|].
      destruct (split file) as [|h t] eqn:Hsplit; [discriminate|].
      rewrite Hseven in H. simpl in H. injection H as Hh.
      apply (split_head_isabs file h t Hsplit); [|exact Hh].
      intros ->. discriminate.
  - intros [Hle | [Hseven Habs]].
    + replace (length (split file) - 6) with 0 by lia. reflexivity.
    + rewrite Hseven. destruct (split file) as [|h t] eqn:Hsplit; [discriminate|].
      assert (Ht : t <> []) by (intros ->; discriminate).
      apply (split_head_isabs file h t Hsplit Ht) in Habs. subst h. reflexivity.
Qed.

(** ** The directory of a path, and one hop of the loop *)

Lemma upto_last_sep_no_sep s : has_sep s = false -> upto_last_sep s = "".
Proof. destruct s as [|c r]; simpl; [reflexivity | now intros ->]. Qed.

Lemma has_sep_app_sep a b : has_sep (a +:+ String sep b) = true.
Proof. induction a as [|c a IH]; simpl; [reflexivity | rewrite IH; apply orb_true_r]. Qed.

Lemma upto_last_sep_app d leaf :
  has_sep leaf = false -> upto_last_sep (d +:+ String sep leaf) = d +:+ String sep "".
Proof.
  intros Hleaf. induction d as [|c d IH]; simpl.
  - now rewrite (upto_last_sep_no_sep leaf Hleaf).
  - now rewrite has_sep_app_sep, orb_true_r, IH.
Qed.

Lemma all_sep_app a b : all_sep (a +:+ b) = all_sep a && all_sep b.
Proof. induction a as [|c a IH]; simpl; [reflexivity | now rewrite IH, andb_assoc]. Qed.

Lemma all_sep_endswith d : d <> "" -> all_sep d = true -> endswith_sep d = true.
Proof.
  induction d as [|c [|c' d] IH]; intros Hne; [now destruct Hne | |].
  - simpl. now rewrite andb_true_r.
  - intros H. apply andb_true_iff in H as [_ H].
    change (endswith_sep (String c (String c' d))) with (endswith_sep (String c' d)).
    now apply IH.
Qed.

Lemma rstrip_sep_app_sep d : rstrip_sep (d +:+ String sep "") = rstrip_sep d.
Proof. induction d as [|c d IH]; simpl; [reflexivity | now rewrite IH]. Qed.

Lemma rstrip_sep_id d : endswith_sep d = false -> rstrip_sep d = d.
Proof.
  induction d as [|c [|c' d] IH]; intros H; [reflexivity | |].
  - simpl in *. now rewrite H.
  - change (endswith_sep (String c (String c' d))) with (endswith_sep (String c' d)) in H.
    change (rstrip_sep (String c (String c' d)))
      with (match rstrip_sep (String c' d) with
            | "" => if is_sep c then "" else String c ""
            | r' => String c r'
            end).
    now rewrite (IH H).
Qed.

(** The directory of [d/leaf] is [d], when [d] is not empty and does not
    end with a separator and [leaf] has none. *)
Lemma dirname_app d leaf :
  d <> "" -> endswith_sep d = false -> has_sep leaf = false ->
  dirname (d +:+ String sep leaf) = d.
Proof.
  intros Hne Hend Hleaf. unfold dirname. rewrite (upto_last_sep_app d leaf Hleaf).
  assert (Hall : all_sep (d +:+ String sep "") = false).
  { rewrite all_sep_app. destruct (all_sep d) eqn:Hd; [|reflexivity].
    apply (all_sep_endswith d Hne) in Hd. congruence. }
  rewrite Hall. replace (String.eqb (d +:+ String sep "") "") with false
    by (destruct d; [now destruct Hne | reflexivity]).
  simpl. rewrite rstrip_sep_app_sep. now apply rstrip_sep_id.
Qed.

(** One hop from the link [d/leaf] with a relative target leads to the
    target in the same directory. *)
Lemma replace_leaf_sibling d leaf target :
  d <> "" -> endswith_sep d = false -> has_sep leaf = false -> isabs target = false ->
  replace_leaf (d +:+ String sep leaf) target = d +:+ String sep target.
Proof.
  intros Hne Hend Hleaf Hrel. unfold replace_leaf.
  rewrite (dirname_app d leaf Hne Hend Hleaf). unfold join. rewrite Hrel, Hend.
  now replace (String.eqb d "") with false by (destruct d; [now destruct Hne | reflexivity]).
Qed.

(** X3: a link [d/leaf] whose target [t] is relative is resolved against
    the directory [d] that contains the link: when [d/t] is not a link,
    [dereference_symlinks] returns [d/t], after one iteration. *)
Theorem dereference_symlinks_sibling_link
    (fs : FileSystem) (d leaf target : string) (fuel : nat) :
  d <> "" -> endswith_sep d = false -> has_sep leaf = false -> isabs target = false ->
  symlink_target fs (d +:+ String sep leaf) = Some target ->
  symlink_target fs (d +:+ String sep target) = None ->
  dereference_symlinks fs (S fuel) (d +:+ String sep leaf) = Some (d +:+ String sep target)
  /\ dereference_symlinks fs 0 (d +:+ String sep leaf) = None.
Proof.
  intros Hne Hend Hleaf Hrel Hlink Htarget. split.
  - rewrite (deref_link fs fuel _ target Hlink).
    rewrite (replace_leaf_sibling d leaf target Hne Hend Hleaf Hrel).
    now apply deref_not_link.
  - now apply (deref_link_O fs _ target).
Qed.

Lemma dereference_symlinks_sibling_link_witness :
  dereference_symlinks sample_fs 1 ("/src" +:+ String sep "main.py")
  = Some ("/src" +:+ String sep "gen/main.py")
  /\ dereference_symlinks sample_fs 0 ("/src" +:+ String sep "main.py") = None.
Proof.
  apply (dereference_symlinks_sibling_link sample_fs "/src" "main.py" "gen/main.py" 0);
    try reflexivity.
  discriminate.
Defined.

(** X4: on a file system all of whose links have relative targets, what
    [dereference_symlinks] returns is absolute exactly when its argument
    is: a relative path stays relative. *)
Theorem dereference_symlinks_relative_links
    (fs : FileSystem) (fuel : nat) (p r : string) :
  (forall x t, symlink_target fs x = Some t -> isabs t = false) ->
  dereference_symlinks fs fuel p = Some r ->
  isabs r = isabs p.
Proof.
  intros Hrel. revert p. induction fuel as [|n IH]; intros p; simpl;
    destruct (symlink_target fs p) as [t|] eqn:Hp; try discriminate.
  - now intros [= <-].
  - intros H. rewrite (IH _ H). fold (replace_leaf p t).
    now rewrite isabs_replace_leaf, (Hrel p t Hp).
  - now intros [= <-].
Qed.

Lemma dereference_symlinks_relative_links_witness :
  isabs "out/gen/main.py" = isabs "out/main.py".
Proof.
  apply (dereference_symlinks_relative_links
           (links_of [("out/main.py", "gen/main.py")]) 1 "out/main.py" "out/gen/main.py").
  - intros x t. simpl.
    destruct (decide (x = "out/main.py")) as [-> | Hne].
    + vm_compute. now intros [= <-].
    + rewrite lookup_insert_ne by congruence. rewrite lookup_empty. discriminate.
  - vm_compute. reflexivity.
Defined.

(** ** The shape of a run *)

Section AddAllCalls.

Variable env : Env.
Variable add : PEXBuilder -> string -> string -> M PEXBuilder.
Variable call : string -> string -> event.
Variable c : category.
Hypothesis add_def :
  forall b src dst, add b src dst = (emit (call src dst) ;; register env c b src dst).

(** A loop logs only calls of its own kind, and raises only what the
    registration raises. *)
Lemma add_all_calls fuel items : forall b s s' r,
  add_all env add fuel items b s = (s', r) ->
  exists evs, s' = log s evs
    /\ Forall (fun e => exists src dst, e = call src dst) evs
    /\ (forall e, r = Raised e -> not_exit e).
Proof.
  induction items as [|[dst src] rest IH]; intros b s s' r H; simpl in H.
  - inversion H; subst. exists []. rewrite log_nil. split; [reflexivity|].
    split; [constructor | discriminate].
  - unfold bind at 1 in H. unfold run_loop in H.
    destruct (dereference_symlinks (fs env) fuel src) as [resolved|].
    + unfold bind at 1 in H. rewrite (add_run env add call c add_def), register_run in H.
      simpl in H.
      destruct (escapes_root dst).
      { inversion H; subst. exists [call resolved dst]. split; [reflexivity|].
        split; [repeat constructor; now exists resolved, dst | now intros e [= <-]]. }
      destruct (file_content (fs env) resolved).
      2:{ inversion H; subst. exists [call resolved dst]. split; [reflexivity|].
          split; [repeat constructor; now exists resolved, dst | now intros e [= <-]]. }
      apply IH in H as (evs & -> & Hevs & Hexn).
      exists (call resolved dst :: evs). rewrite log_log. split; [reflexivity|].
      split; [constructor; [now exists resolved, dst | exact Hevs] | exact Hexn].
    + inversion H; subst. exists []. rewrite log_nil. split; [reflexivity|].
      split; [constructor | discriminate].
Qed.

End AddAllCalls.

(** Closes one conjunct of the shape of a run. *)
Ltac shape_goal :=
  first [ done
        | now left
        | right; now eexists
        | now eexists
        | simpl; rewrite ?app_nil_r, <- ?app_assoc; reflexivity
        | match goal with Hexn : forall e, Raised ?x = Raised e -> not_exit e |- _ =>
            now apply Hexn
          end ].

(** The calls of the body of the [try], whatever its outcome: the
    introspection, the creation of the builder, the registrations of the
    modules, those of the resources, the build. *)
Lemma main_try_shape (env : Env) (options : Options) (output tmp : string)
    (m : Manifest) (fuel : nat) (s s' : State) (r : result unit) :
  main_try env options output m tmp fuel s = (s', r) ->
  exists pre evs1 evs2 post,
    trace s' = trace s ++ pre ++ evs1 ++ evs2 ++ post
    /\ (pre = [FromBinary (options_python options)]
        \/ exists native,
             pre = [FromBinary (options_python options);
                    NewPEXBuilder tmp (custom_interpreter env options native)])
    /\ Forall (fun e => exists src dst, e = AddSource src dst) evs1
    /\ Forall (fun e => exists src dst, e = AddResource src dst) evs2
    /\ (post = [] \/ exists b, post = [Build b output])
    /\ (modules m = None -> evs1 = [] /\ evs2 = [] /\ post = [])
    /\ (resources m = None -> evs2 = [] /\ post = [])
    /\ match r with
       | Returned _ => exists b, post = [Build b output]
       | Raised e => not_exit e
       | Looping => post = []
       end.
Proof.
  rewrite main_try_unfold. intros H.
  destruct (introspect env (options_python options)) as [native|].
  2:{ inversion H; subst. exists [FromBinary (options_python options)], [], [], [].
      split_and!; shape_goal. }
  simpl in H. set (pre := [FromBinary (options_python options);
                           NewPEXBuilder tmp (custom_interpreter env options native)]) in *.
  assert (Hpre : pre = [FromBinary (options_python options)]
                 \/ exists native0,
                      pre = [FromBinary (options_python options);
                             NewPEXBuilder tmp (custom_interpreter env options native0)])
    by (right; now exists native).
  clearbody pre.
  destruct (modules m) as [ms|].
  2:{ inversion H; subst. exists pre, [], [], []. split_and!; shape_goal. }
  unfold bind at 1 in H.
  destruct (add_all env (add_source env) fuel ms (configured env options tmp native)
              (log s pre)) as [s2 r2] eqn:Hloop1.
  apply (add_all_calls env _ AddSource Source (fun _ _ _ => eq_refl)) in Hloop1
    as (evs1 & -> & Hevs1 & Hexn1).
  destruct r2 as [b2|e2|].
  2:{ inversion H; subst. exists pre, evs1, [], []. split_and!; shape_goal. }
  2:{ inversion H; subst. exists pre, evs1, [], []. split_and!; shape_goal. }
  unfold bind at 1 in H. unfold getitem at 1 in H.
  destruct (resources m) as [rs|].
  2:{ inversion H; subst. exists pre, evs1, [], []. split_and!; shape_goal. }
  simpl in H. unfold bind at 1 in H.
  destruct (add_all env (add_resource env) fuel rs b2 (log (log s pre) evs1))
    as [s3 r3] eqn:Hloop2.
  apply (add_all_calls env _ AddResource Resource (fun _ _ _ => eq_refl)) in Hloop2
    as (evs2 & -> & Hevs2 & Hexn2).
  destruct r3 as [b3|e3|].
  2:{ inversion H; subst. exists pre, evs1, evs2, []. split_and!; shape_goal. }
  2:{ inversion H; subst. exists pre, evs1, evs2, []. split_and!; shape_goal. }
  rewrite build_run in H.
  destruct (seal_fails env); inversion H; subst;
    exists pre, evs1, evs2, [Build b3 output]; split_and!; shape_goal.
Qed.

(** The calls of a whole run of [main], from the initial state. *)
Lemma main_shape (env : Env) (cli : CommandLine) (fuel : nat)
    (s' : State) (r : result (option Z)) :
  main env cli fuel initial = (s', r) ->
  (length (args cli) <> 1 /\ trace s' = [ParserError usage_message]
   /\ r = Raised (SystemExit 2))
  \/ exists output, args cli = [output]
       /\ ((stdin_json env = None /\ trace s' = [JsonLoad] /\ r = Raised ValueError)
           \/ (mkdtemp_name env = None /\ trace s' = [JsonLoad; Mkdtemp]
               /\ r = Raised OSError)
           \/ exists m tmp pre evs1 evs2 post rm,
                stdin_json env = Some m /\ mkdtemp_name env = Some tmp
                /\ trace s' = [JsonLoad; Mkdtemp] ++ pre ++ evs1 ++ evs2 ++ post ++ rm
                /\ (pre = [FromBinary (options_python (parse_args env cli))]
                    \/ exists native,
                         pre = [FromBinary (options_python (parse_args env cli));
                                NewPEXBuilder tmp
                                  (custom_interpreter env (parse_args env cli) native)])
                /\ Forall (fun e => exists src dst, e = AddSource src dst) evs1
                /\ Forall (fun e => exists src dst, e = AddResource src dst) evs2
                /\ (post = [] \/ exists b, post = [Build b output])
                /\ (modules m = None -> evs1 = [] /\ evs2 = [] /\ post = [])
                /\ (resources m = None -> evs2 = [] /\ post = [])
                /\ match r with
                   | Returned v => v = None /\ (exists b, post = [Build b output])
                                   /\ rm = [Rmtree tmp true]
                   | Raised e => not_exit e /\ rm = [Rmtree tmp true]
                   | Looping => post = [] /\ rm = []
                   end).
Proof.
  by_arity cli output Hargs.
  2:{ rewrite main_usage by exact Hargs. intros [= <- <-]. left. now split. }
  rewrite (main_unfold env cli fuel output initial Hargs). intros H.
  right. exists output. split; [reflexivity|].
  destruct (stdin_json env) as [m|]; [|inversion H; subst; left; now split].
  destruct (mkdtemp_name env) as [tmp|]; [|inversion H; subst; right; left; now split].
  right. right.
  destruct (main_try env (parse_args env cli) output m tmp fuel (entered initial tmp))
    as [s1 r1] eqn:Htry.
  apply main_try_shape in Htry
    as (pre & evs1 & evs2 & post & Htrace & Hpre & Hevs1 & Hevs2 & Hpost & Hmod & Hres & Hr).
  simpl in Htrace.
  destruct r1 as [[]|e|]; inversion H; subst; simpl.
  - exists m, tmp, pre, evs1, evs2, post, [Rmtree tmp true].
    rewrite Htrace. simpl. rewrite <- !app_assoc. now split_and!.
  - exists m, tmp, pre, evs1, evs2, post, [Rmtree tmp true].
    rewrite Htrace. simpl. rewrite <- !app_assoc. now split_and!.
  - exists m, tmp, pre, evs1, evs2, [], [].
    rewrite Htrace. now split_and!.
Qed.

(** ** The order of the calls *)

Lemma sorted_join lo hi (l1 l2 : list event) :
  StronglySorted precedes l1 -> Forall (fun e => lo <= phase e <= hi) l1 ->
  StronglySorted precedes l2 -> Forall (fun e => S hi <= phase e <= 8) l2 ->
  lo <= S hi -> hi <= 8 ->
  StronglySorted precedes (l1 ++ l2) /\ Forall (fun e => lo <= phase e <= 8) (l1 ++ l2).
Proof.
  intros Hs1 Hb1 Hs2 Hb2 Hlo Hhi. rewrite Forall_forall in Hb1, Hb2. split.
  - apply StronglySorted_app_2; [|exact Hs1|exact Hs2].
    intros x1 x2 Hx1 Hx2. left. specialize (Hb1 x1 Hx1). specialize (Hb2 x2 Hx2). lia.
  - apply Forall_app. split; apply Forall_forall; intros x Hx;
      [specialize (Hb1 x Hx) | specialize (Hb2 x Hx)]; lia.
Qed.

Lemma sorted_registrations k (l : list event) :
  Forall (fun e => phase e = k /\ is_registration e) l -> StronglySorted precedes l.
Proof.
  induction 1 as [|x l [Hk Hreg] Hl IH]; constructor; [exact IH|].
  eapply Forall_impl; [exact Hl|]. intros y [Hy _]. right. split; [congruence | exact Hreg].
Qed.

(** Closes sortedness and phase bounds of a list that is written out. *)
Ltac listed :=
  repeat first [ apply SSorted_nil | apply SSorted_cons | apply Forall_nil_2
               | apply Forall_cons_2; [first [unfold precedes; simpl; lia | simpl; lia]|] ].

(** After [parse_args] has returned, the calls of [main] come in the order
    of the pipeline: the usage error alone, or the reading of the manifest, the
    creation of the scratch directory, the introspection, the creation of
    the builder, the registrations of modules, then those of resources,
    the build, the removal; each at most once but for the registrations.
    No module is registered after a resource, nothing is registered after
    the build, and nothing is called after the removal. *)
Theorem main_calls_in_order (env : Env) (cli : CommandLine) (fuel : nat) :
  StronglySorted precedes (trace (main env cli fuel initial).1).
Proof.
  destruct (main env cli fuel initial) as [s' r] eqn:Hrun. simpl.
  apply main_shape in Hrun as [(_ & Htrace & _) | (output & _ & Hcases)];
    [rewrite Htrace; listed|].
  destruct Hcases as [(_ & Htrace & _) | [(_ & Htrace & _) | Hfull]];
    [rewrite Htrace; listed | rewrite Htrace; listed |].
  destruct Hfull as (m & tmp & pre & evs1 & evs2 & post & rm & _ & _ & Htrace & Hpre & Hevs1
                     & Hevs2 & Hpost & _ & _ & Hr).
  rewrite Htrace. clear Htrace.
  assert (Hrm : StronglySorted precedes rm /\ Forall (fun e => 8 <= phase e <= 8) rm).
  { destruct r as [v|e|]; [destruct Hr as (_ & _ & ->) | destruct Hr as (_ & ->)
                          | destruct Hr as (_ & ->)]; split; listed. }
  assert (Hpo : StronglySorted precedes post /\ Forall (fun e => 7 <= phase e <= 7) post).
  { destruct Hpost as [-> | [b ->]]; split; listed. }
  assert (H2 : StronglySorted precedes evs2 /\ Forall (fun e => 6 <= phase e <= 6) evs2).
  { split; [apply (sorted_registrations 6)|];
      (eapply Forall_impl; [exact Hevs2|]); intros e (src & dst & ->); simpl; [tauto | lia]. }
  assert (H1 : StronglySorted precedes evs1 /\ Forall (fun e => 5 <= phase e <= 5) evs1).
  { split; [apply (sorted_registrations 5)|];
      (eapply Forall_impl; [exact Hevs1|]); intros e (src & dst & ->); simpl; [tauto | lia]. }
  assert (Hpr : StronglySorted precedes pre /\ Forall (fun e => 3 <= phase e <= 4) pre).
  { destruct Hpre as [-> | [native ->]]; split; listed. }
  destruct Hrm as [Hrm1 Hrm2], Hpo as [Hpo1 Hpo2], H2 as [H21 H22], H1 as [H11 H12],
           Hpr as [Hpr1 Hpr2].
  destruct (sorted_join 7 7 post rm Hpo1 Hpo2 Hrm1 Hrm2) as [Ha1 Ha2]; [lia..|].
  destruct (sorted_join 6 6 evs2 _ H21 H22 Ha1 Ha2) as [Hb1 Hb2]; [lia..|].
  destruct (sorted_join 5 5 evs1 _ H11 H12 Hb1 Hb2) as [Hc1 Hc2]; [lia..|].
  destruct (sorted_join 3 4 pre _ Hpr1 Hpr2 Hc1 Hc2) as [Hd1 Hd2]; [lia..|].
  apply (sorted_join 1 2 [JsonLoad; Mkdtemp] _); [listed | listed | exact Hd1 | | lia | lia].
  eapply Forall_impl; [exact Hd2|]. intros e He. simpl in He. lia.
Qed.

(** ** The removal of the scratch directory *)

(** A removal in the trace is the last call of a run that exits, and
    removes the directory that [mkdtemp] returned. *)
Lemma rmtree_in_trace (env : Env) (cli : CommandLine) (fuel : nat)
    (dir : string) (flag : bool) :
  Rmtree dir flag ∈ trace (main env cli fuel initial).1 ->
  mkdtemp_name env = Some dir /\ flag = true
  /\ last (trace (main env cli fuel initial).1) = Some (Rmtree dir true)
  /\ (main env cli fuel initial).2 <> Looping.
Proof.
  destruct (main env cli fuel initial) as [s' r] eqn:Hrun. simpl.
  apply main_shape in Hrun as [(_ & Htrace & _) | (output & _ & Hcases)].
  { rewrite Htrace. intros Hin. apply list_elem_of_singleton in Hin. discriminate. }
  destruct Hcases as [(_ & Htrace & _) | [(_ & Htrace & _) | Hfull]].
  { rewrite Htrace. intros Hin. apply list_elem_of_singleton in Hin. discriminate. }
  { rewrite Htrace, !elem_of_cons. intros [Hin | [Hin | Hin]]; try discriminate.
    inversion Hin. }
  destruct Hfull as (m & tmp & pre & evs1 & evs2 & post & rm & _ & Htmp & Htrace & Hpre
                     & Hevs1 & Hevs2 & Hpost & _ & _ & Hr).
  rewrite Htrace, !elem_of_app, !elem_of_cons. rewrite Forall_forall in Hevs1, Hevs2.
  intros [[Hin | [Hin | Hin]] | [Hin | [Hin | [Hin | [Hin | Hin]]]]]; try discriminate.
  - inversion Hin.
  - destruct Hpre as [-> | [native ->]].
    + apply list_elem_of_singleton in Hin. discriminate.
    + apply elem_of_cons in Hin as [Hin | Hin]; [discriminate|].
      apply list_elem_of_singleton in Hin. discriminate.
  - destruct (Hevs1 _ Hin) as (src & dst & Heq). discriminate.
  - destruct (Hevs2 _ Hin) as (src & dst & Heq). discriminate.
  - destruct Hpost as [-> | [b ->]]; [inversion Hin|].
    apply list_elem_of_singleton in Hin. discriminate.
  - assert (Hrm : rm = [Rmtree tmp true] /\ r <> Looping).
    { destruct r as [v|e|]; [destruct Hr as (_ & _ & ->) | destruct Hr as (_ & ->)
                            | destruct Hr as (_ & ->)];
        [now split | now split | inversion Hin]. }
    destruct Hrm as [-> Hexit]. apply list_elem_of_singleton in Hin.
    injection Hin as -> ->. split; [exact Htmp|]. split; [reflexivity|].
    split; [|exact Hexit].
    rewrite !app_assoc. apply last_snoc.
Qed.

(** X6: [main] removes nothing but the scratch directory that [mkdtemp]
    returned to it, always with [ignore_errors] set, and the removal is the
    last call it makes. *)
Theorem main_removes_only_scratch_dir (env : Env) (cli : CommandLine) (fuel : nat)
    (dir : string) (flag : bool) :
  Rmtree dir flag ∈ trace (main env cli fuel initial).1 ->
  mkdtemp_name env = Some dir /\ flag = true
  /\ last (trace (main env cli fuel initial).1) = Some (Rmtree dir true).
Proof.
  intros Hin. destruct (rmtree_in_trace env cli fuel dir flag Hin) as (H1 & H2 & H3 & _).
  now split_and!.
Qed.

Lemma main_removes_only_scratch_dir_witness :
  mkdtemp_name failing_env = Some "/tmp/tmpAb12" /\ true = true
  /\ last (trace (main failing_env (cli_of ["out.pex"]) 1 initial).1)
     = Some (Rmtree "/tmp/tmpAb12" true).
Proof.
  apply (main_removes_only_scratch_dir failing_env (cli_of ["out.pex"]) 1).
  apply last_Some_elem_of. vm_compute. reflexivity.
Defined.

(** ** The exit status *)

(** After [parse_args] has returned, the status of [sys.exit(main())]: it
    is 0 exactly when [main] returns, and then [build] was called and returned, followed by the
    removal; it is 2 exactly when the number of positional arguments is
    not one; any other exit has status 1; and there is none exactly when
    [main] does not leave a loop. *)
Theorem main_exit_status (env : Env) (cli : CommandLine) (fuel : nat) :
  (exit_status (main env cli fuel initial).2 = Some 0%Z
   <-> (main env cli fuel initial).2 = Returned None)
  /\ (exit_status (main env cli fuel initial).2 = Some 2%Z <-> length (args cli) <> 1)
  /\ (exit_status (main env cli fuel initial).2 = None
      <-> (main env cli fuel initial).2 = Looping)
  /\ (forall n, exit_status (main env cli fuel initial).2 = Some n ->
                n = 0%Z \/ n = 1%Z \/ n = 2%Z)
  /\ ((main env cli fuel initial).2 = Returned None ->
      exists calls b output tmp,
        args cli = [output]
        /\ trace (main env cli fuel initial).1
           = calls ++ [Build b output; Rmtree tmp true]).
Proof.
  destruct (main env cli fuel initial) as [s' r] eqn:Hrun. simpl.
  apply main_shape in Hrun as [(Hlen & _ & ->) | (output & Hargs & Hcases)].
  { simpl. split_and!; try (split; (done || discriminate)); try discriminate.
    intros n [= <-]. tauto. }
  assert (Hone : length (args cli) = 1) by now rewrite Hargs.
  destruct Hcases as [(_ & _ & ->) | [(_ & _ & ->) | Hfull]].
  1,2: simpl; split_and!; try (split; (done || discriminate)); try discriminate;
       intros n [= <-]; tauto.
  destruct Hfull as (m & tmp & pre & evs1 & evs2 & post & rm & _ & _ & Htrace & _ & _ & _
                     & _ & _ & _ & Hr).
  destruct r as [v|e|].
  - destruct Hr as (-> & [b ->] & ->). simpl.
    split_and!; try (split; (done || discriminate)); try discriminate.
    + intros n [= <-]. tauto.
    + intros _. exists ([JsonLoad; Mkdtemp] ++ pre ++ evs1 ++ evs2), b, output, tmp.
      split; [exact Hargs|]. rewrite Htrace. now rewrite <- !app_assoc.
  - destruct Hr as [He _]. destruct e; try (now destruct He); simpl;
      (split_and!; try (split; (done || discriminate)); try discriminate;
       intros n [= <-]; tauto).
  - simpl. split_and!; try (split; (done || discriminate)); discriminate.
Qed.

(** ** Runs that do not exit *)

Section AddAllLoops.

Variable env : Env.
Variable add : PEXBuilder -> string -> string -> M PEXBuilder.
Variable call : string -> string -> event.
Variable c : category.
Hypothesis add_def :
  forall b src dst, add b src dst = (emit (call src dst) ;; register env c b src dst).

(** A loop over entries that all register returns, given the iterations
    their sources need. *)
Lemma add_all_succeeds fuel items : forall b s,
  Forall (registrable env) items ->
  Forall (fun it => is_Some (dereference_symlinks (fs env) fuel it.2)) items ->
  exists s' b', add_all env add fuel items b s = (s', Returned b').
Proof.
  induction items as [|[dst src] rest IH]; intros b s Hreg Hres; simpl.
  - now exists s, b.
  - inversion Hreg as [|? ? [Hesc Hread] Hreg']; subst.
    inversion Hres as [|? ? [resolved Hresolved] Hres']; subst. simpl in *.
    unfold bind at 1. unfold run_loop. rewrite Hresolved.
    unfold bind at 1. rewrite (add_run env add call c add_def), register_run. simpl.
    rewrite Hesc.
    destruct (Hread resolved) as [content ->]; [apply derefs_fuel; now exists fuel|].
    now apply IH.
Qed.

(** A loop that reaches an entry whose source is a cyclic link does not
    return, whatever the number of iterations. *)
Lemma add_all_loops fuel done dst src rest : forall b s,
  Forall (registrable env) done -> cyclic (fs env) src ->
  (add_all env add fuel (done ++ (dst, src) :: rest) b s).2 = Looping.
Proof.
  induction done as [|[dst0 src0] done IH]; intros b s Hreg Hcyc; simpl.
  - unfold bind at 1. unfold run_loop. now rewrite (deref_cyclic (fs env) fuel src Hcyc).
  - inversion Hreg as [|? ? [Hesc Hread] Hreg']; subst. simpl in *.
    unfold bind at 1. unfold run_loop.
    destruct (dereference_symlinks (fs env) fuel src0) as [resolved|] eqn:Hres;
      [|reflexivity].
    unfold bind at 1. rewrite (add_run env add call c add_def), register_run. simpl.
    rewrite Hesc.
    destruct (Hread resolved) as [content ->]; [apply derefs_fuel; now exists fuel|].
    now apply IH.
Qed.

End AddAllLoops.

(** X5: when the interpreter is introspected and the manifest has a module
    whose source is a cyclic link, the modules before it registering
    without error, [main] never exits, whatever the number of iterations:
    the scratch directory stays and its removal is never called. *)
Theorem main_hangs_on_cyclic_module
    (env : Env) (cli : CommandLine) (fuel : nat) (output tmp : string) (m : Manifest)
    (native : PythonInterpreter) (done rest : list (string * string)) (dst src : string) :
  args cli = [output] -> stdin_json env = Some m -> mkdtemp_name env = Some tmp ->
  introspect env (options_python (parse_args env cli)) = Some native ->
  modules m = Some (done ++ (dst, src) :: rest) ->
  Forall (registrable env) done -> cyclic (fs env) src ->
  (main env cli fuel initial).2 = Looping
  /\ tmp ∈ scratch_dirs (main env cli fuel initial).1
  /\ (forall d flag, Rmtree d flag ∉ trace (main env cli fuel initial).1).
Proof.
  intros Hargs Hm Htmp Hnative Hmod Hreg Hcyc.
  assert (Hloop : (main env cli fuel initial).2 = Looping
                  /\ tmp ∈ scratch_dirs (main env cli fuel initial).1).
  { rewrite (main_unfold env cli fuel output initial Hargs), Hm, Htmp.
    destruct (main_try env (parse_args env cli) output m tmp fuel (entered initial tmp))
      as [s1 r1] eqn:Htry.
    assert (Hr1 : r1 = Looping).
    { rewrite main_try_unfold, Hnative, Hmod in Htry. simpl in Htry.
      unfold bind at 1 in Htry.
      match type of Htry with context [add_all env (add_source env) fuel _ ?b ?s0] =>
        pose proof (add_all_loops env (add_source env) AddSource Source
                      (fun _ _ _ => eq_refl) fuel done dst src rest b s0 Hreg Hcyc) as Hl;
        destruct (add_all env (add_source env) fuel (done ++ (dst, src) :: rest) b s0)
          as [s2 r2]
      end.
      simpl in Hl. subst r2. now inversion Htry. }
    subst r1. apply main_try_run in Htry as (_ & _ & _ & Hdirs & _).
    simpl. split; [reflexivity|]. rewrite Hdirs. simpl.
    apply elem_of_union. left. now apply elem_of_singleton. }
  destruct Hloop as [Hloop Hdir]. split; [exact Hloop|]. split; [exact Hdir|].
  intros d flag Hin. apply rmtree_in_trace in Hin as (_ & _ & _ & Hexit). now apply Hexit.
Qed.

Lemma main_hangs_on_cyclic_module_witness :
  (main (env_with (Some looping_manifest) false false) (cli_of ["out.pex"]) 7 initial).2
  = Looping
  /\ "/tmp/tmpAb12"
     ∈ scratch_dirs
         (main (env_with (Some looping_manifest) false false) (cli_of ["out.pex"]) 7 initial).1
  /\ (forall d flag,
        Rmtree d flag
        ∉ trace (main (env_with (Some looping_manifest) false false)
                   (cli_of ["out.pex"]) 7 initial).1).
Proof.
  apply (main_hangs_on_cyclic_module (env_with (Some looping_manifest) false false)
           (cli_of ["out.pex"]) 7 "out.pex" "/tmp/tmpAb12" looping_manifest
           (native_python "/usr/bin/python") [] [] "app/a.py" "/loop/a.py");
    try reflexivity.
  - constructor.
  - exists 0. apply (leaf_chain_S sample_fs 0 "/loop/a.py" "a.py"); [vm_compute; reflexivity|].
    apply (leaf_chain_O sample_fs "/loop/a.py").
Defined.

(** ** Early failures and edge cases of the manifest *)

(** X8: when the interpreter cannot be introspected, [main] raises the
    error of the introspection right after the creation of the scratch
    directory: no builder is created and no entry of the manifest is looked
    at, so the run exits whatever the manifest holds, a cyclic link
    included; the scratch directory is removed and the exit status is 1. *)
Theorem main_interpreter_failure
    (env : Env) (cli : CommandLine) (fuel : nat) (output tmp : string) (m : Manifest) :
  args cli = [output] -> stdin_json env = Some m -> mkdtemp_name env = Some tmp ->
  introspect env (options_python (parse_args env cli)) = None ->
  main env cli fuel initial
  = (cleaned env (log (entered initial tmp)
                    [FromBinary (options_python (parse_args env cli))]) tmp,
     Raised (InterpreterResolutionError (options_python (parse_args env cli))))
  /\ trace (main env cli fuel initial).1
     = [JsonLoad; Mkdtemp; FromBinary (default (sys_executable env) (given_python cli));
        Rmtree tmp true]
  /\ exit_status (main env cli fuel initial).2 = Some 1%Z.
Proof.
  intros Hargs Hm Htmp Hnone.
  assert (Hrun : main env cli fuel initial
                 = (cleaned env (log (entered initial tmp)
                                   [FromBinary (options_python (parse_args env cli))]) tmp,
                    Raised (InterpreterResolutionError
                              (options_python (parse_args env cli))))).
  { rewrite (main_unfold env cli fuel output initial Hargs), Hm, Htmp.
    now rewrite main_try_unfold, Hnone. }
  rewrite Hrun. now split_and!.
Qed.

Lemma main_interpreter_failure_witness :
  main no_python_env (cli_of ["out.pex"]) 0 initial
  = (cleaned no_python_env
       (log (entered initial "/tmp/tmpAb12")
          [FromBinary (options_python (parse_args no_python_env (cli_of ["out.pex"])))])
       "/tmp/tmpAb12",
     Raised (InterpreterResolutionError
               (options_python (parse_args no_python_env (cli_of ["out.pex"])))))
  /\ trace (main no_python_env (cli_of ["out.pex"]) 0 initial).1
     = [JsonLoad; Mkdtemp;
        FromBinary (default (sys_executable no_python_env)
                      (given_python (cli_of ["out.pex"])));
        Rmtree "/tmp/tmpAb12" true]
  /\ exit_status (main no_python_env (cli_of ["out.pex"]) 0 initial).2 = Some 1%Z.
Proof.
  apply (main_interpreter_failure no_python_env (cli_of ["out.pex"]) 0 "out.pex"
           "/tmp/tmpAb12" looping_manifest); reflexivity.
Defined.

(** X9: a manifest without the [modules] key makes [main] raise
    [KeyError('modules')], after the builder is created and before anything
    is registered, whether the [resources] key is there or not; the scratch
    directory is removed and the exit status is 1. *)
Theorem main_missing_modules_key
    (env : Env) (cli : CommandLine) (fuel : nat) (output tmp : string) (m : Manifest)
    (native : PythonInterpreter) :
  args cli = [output] -> stdin_json env = Some m -> mkdtemp_name env = Some tmp ->
  introspect env (options_python (parse_args env cli)) = Some native ->
  modules m = None ->
  main env cli fuel initial
  = (cleaned env
       (log (entered initial tmp)
          [FromBinary (options_python (parse_args env cli));
           NewPEXBuilder tmp (custom_interpreter env (parse_args env cli) native)]) tmp,
     Raised (KeyError "modules"))
  /\ exit_status (main env cli fuel initial).2 = Some 1%Z.
Proof.
  intros Hargs Hm Htmp Hnative Hmod.
  assert (Hrun : main env cli fuel initial
                 = (cleaned env
                      (log (entered initial tmp)
                         [FromBinary (options_python (parse_args env cli));
                          NewPEXBuilder tmp
                            (custom_interpreter env (parse_args env cli) native)]) tmp,
                    Raised (KeyError "modules"))).
  { rewrite (main_unfold env cli fuel output initial Hargs), Hm, Htmp.
    now rewrite main_try_unfold, Hnative, Hmod. }
  rewrite Hrun. now split.
Qed.

Lemma main_missing_modules_key_witness :
  main (env_with (Some no_key_manifest) false false) (cli_of ["out.pex"]) 0 initial
  = (cleaned (env_with (Some no_key_manifest) false false)
       (log (entered initial "/tmp/tmpAb12")
          [FromBinary (options_python (parse_args (env_with (Some no_key_manifest) false false)
                                         (cli_of ["out.pex"])));
           NewPEXBuilder "/tmp/tmpAb12"
             (custom_interpreter (env_with (Some no_key_manifest) false false)
                (parse_args (env_with (Some no_key_manifest) false false)
                   (cli_of ["out.pex"]))
                (native_python "/usr/bin/python"))]) "/tmp/tmpAb12",
     Raised (KeyError "modules"))
  /\ exit_status (main (env_with (Some no_key_manifest) false false)
                    (cli_of ["out.pex"]) 0 initial).2 = Some 1%Z.
Proof.
  apply (main_missing_modules_key (env_with (Some no_key_manifest) false false)
           (cli_of ["out.pex"]) 0 "out.pex" "/tmp/tmpAb12" no_key_manifest
           (native_python "/usr/bin/python")); reflexivity.
Defined.

(** X10: a manifest without the [resources] key never gets built: no
    resource is registered, [build] is not called and [main] does not
    return; and the missing key is only found after the loop over the
    modules: when every module registers, all of them have been registered
    when [main] raises [KeyError('resources')]. *)
Theorem main_missing_resources_key
    (env : Env) (cli : CommandLine) (fuel : nat) (m : Manifest) :
  stdin_json env = Some m -> resources m = None ->
  (forall b o, Build b o ∉ trace (main env cli fuel initial).1)
  /\ (forall src dst, AddResource src dst ∉ trace (main env cli fuel initial).1)
  /\ (forall v, (main env cli fuel initial).2 <> Returned v)
  /\ (forall output tmp native ms,
        args cli = [output] -> mkdtemp_name env = Some tmp ->
        introspect env (options_python (parse_args env cli)) = Some native ->
        modules m = Some ms -> Forall (registrable env) ms ->
        Forall (fun it => is_Some (dereference_symlinks (fs env) fuel it.2)) ms ->
        (main env cli fuel initial).2 = Raised (KeyError "resources")
        /\ exists evs,
             Forall2 (registers env fuel AddSource) ms evs
             /\ trace (main env cli fuel initial).1
                = [JsonLoad; Mkdtemp; FromBinary (options_python (parse_args env cli));
                   NewPEXBuilder tmp (custom_interpreter env (parse_args env cli) native)]
                  ++ evs ++ [Rmtree tmp true]).
Proof.
  intros Hm Hres.
  assert (Hneg : (forall e, e ∈ trace (main env cli fuel initial).1 -> phase e <> 6 /\ phase e <> 7)
                 /\ (forall v, (main env cli fuel initial).2 <> Returned v)).
  { destruct (main env cli fuel initial) as [s' r] eqn:Hrun. simpl.
    apply main_shape in Hrun as [(_ & Htrace & ->) | (output & _ & Hcases)].
    { split; [|discriminate]. rewrite Htrace. intros e He.
      apply list_elem_of_singleton in He. subst e. simpl. lia. }
    destruct Hcases as [(Hnone & _) | [(_ & Htrace & ->) | Hfull]]; [congruence | |].
    { split; [|discriminate]. rewrite Htrace. intros e He.
      rewrite !elem_of_cons in He. destruct He as [-> | [-> | He]]; [simpl; lia.. |].
      inversion He. }
    destruct Hfull as (m' & tmp & pre & evs1 & evs2 & post & rm & Hm' & _ & Htrace & Hpre
                       & Hevs1 & _ & _ & _ & Hnores & Hr).
    assert (m' = m) by congruence. subst m'.
    destruct (Hnores Hres) as [-> ->]. split.
    - rewrite Htrace. intros e. rewrite !elem_of_app, !elem_of_cons.
      rewrite Forall_forall in Hevs1.
      intros [[-> | [-> | He]] | [He | [He | [He | [He | He]]]]]; try (simpl; lia);
        try (inversion He; fail).
      + destruct Hpre as [-> | [native ->]]; rewrite ?elem_of_cons in He.
        * destruct He as [-> | He]; [simpl; lia | inversion He].
        * destruct He as [-> | [-> | He]]; [simpl; lia.. | inversion He].
      + destruct (Hevs1 _ He) as (src & dst & ->). simpl. lia.
      + destruct r as [v|ex|]; [destruct Hr as (_ & [b Hb] & _); discriminate
                               | destruct Hr as (_ & ->) | destruct Hr as (_ & ->)].
        * apply list_elem_of_singleton in He. subst e. simpl. lia.
        * inversion He.
    - intros v ->. destruct Hr as (_ & [b Hb] & _). discriminate. }
  destruct Hneg as [Hphase Hnot]. split_and!.
  - intros b o Hin. apply Hphase in Hin. simpl in Hin. lia.
  - intros src dst Hin. apply Hphase in Hin. simpl in Hin. lia.
  - exact Hnot.
  - intros output tmp native ms Hargs Htmp Hnative Hmod Hreg Hfuel.
    destruct (add_all_succeeds env (add_source env) AddSource Source
                (fun _ _ _ => eq_refl) fuel ms
                (configured env (parse_args env cli) tmp native)
                (log (entered initial tmp)
                   [FromBinary (options_python (parse_args env cli));
                    NewPEXBuilder tmp (custom_interpreter env (parse_args env cli) native)])
                Hreg Hfuel) as (s2 & b2 & Hloop).
    pose proof Hloop as Hret.
    apply (add_all_returned env _ AddSource Source (fun _ _ _ => eq_refl)) in Hret
      as ((evs & -> & Hevs) & _).
    assert (Hrun : main env cli fuel initial
                   = (cleaned env
                        (log (log (entered initial tmp)
                                [FromBinary (options_python (parse_args env cli));
                                 NewPEXBuilder tmp
                                   (custom_interpreter env (parse_args env cli) native)])
                           evs) tmp,
                      Raised (KeyError "resources"))).
    { rewrite (main_unfold env cli fuel output initial Hargs), Hm, Htmp.
      rewrite main_try_unfold, Hnative, Hmod. cbv beta iota zeta.
      unfold bind at 1. rewrite Hloop. unfold bind at 1. now rewrite Hres. }
    rewrite Hrun. split; [reflexivity|].
    exists evs. split; [exact Hevs|]. simpl. now rewrite <- ?app_assoc.
Qed.

Lemma main_missing_resources_key_witness :
  (forall b o,
     Build b o ∉ trace (main (env_with (Some modules_only_manifest) false false)
                          (cli_of ["out.pex"]) 1 initial).1)
  /\ (forall src dst,
        AddResource src dst
        ∉ trace (main (env_with (Some modules_only_manifest) false false)
                   (cli_of ["out.pex"]) 1 initial).1)
  /\ (forall v, (main (env_with (Some modules_only_manifest) false false)
                   (cli_of ["out.pex"]) 1 initial).2 <> Returned v)
  /\ (forall output tmp native ms,
        args (cli_of ["out.pex"]) = [output] ->
        mkdtemp_name (env_with (Some modules_only_manifest) false false) = Some tmp ->
        introspect (env_with (Some modules_only_manifest) false false)
          (options_python (parse_args (env_with (Some modules_only_manifest) false false)
                             (cli_of ["out.pex"]))) = Some native ->
        modules modules_only_manifest = Some ms ->
        Forall (registrable (env_with (Some modules_only_manifest) false false)) ms ->
        Forall (fun it => is_Some (dereference_symlinks
                                     (fs (env_with (Some modules_only_manifest) false false))
                                     1 it.2)) ms ->
        (main (env_with (Some modules_only_manifest) false false)
           (cli_of ["out.pex"]) 1 initial).2 = Raised (KeyError "resources")
        /\ exists evs,
             Forall2 (registers (env_with (Some modules_only_manifest) false false) 1
                        AddSource) ms evs
             /\ trace (main (env_with (Some modules_only_manifest) false false)
                         (cli_of ["out.pex"]) 1 initial).1
                = [JsonLoad; Mkdtemp;
                   FromBinary (options_python
                                 (parse_args (env_with (Some modules_only_manifest) false false)
                                    (cli_of ["out.pex"])));
                   NewPEXBuilder tmp
                     (custom_interpreter (env_with (Some modules_only_manifest) false false)
                        (parse_args (env_with (Some modules_only_manifest) false false)
                           (cli_of ["out.pex"])) native)]
                  ++ evs ++ [Rmtree tmp true]).
Proof.
  apply (main_missing_resources_key (env_with (Some modules_only_manifest) false false)
           (cli_of ["out.pex"]) 1 modules_only_manifest); reflexivity.
Defined.

(** X11: on a manifest whose two collections are empty, [main] needs no
    iteration of any loop: it creates the builder, configures it and calls
    [build] on it with nothing registered, then removes the scratch
    directory; it returns when [build] does and raises what [build] raises. *)
Theorem main_empty_manifest
    (env : Env) (cli : CommandLine) (fuel : nat) (output tmp : string) (m : Manifest)
    (native : PythonInterpreter) :
  args cli = [output] -> stdin_json env = Some m -> mkdtemp_name env = Some tmp ->
  introspect env (options_python (parse_args env cli)) = Some native ->
  modules m = Some [] -> resources m = Some [] ->
  trace (main env cli fuel initial).1
  = [JsonLoad; Mkdtemp; FromBinary (options_python (parse_args env cli));
     NewPEXBuilder tmp (custom_interpreter env (parse_args env cli) native);
     Build (configured env (parse_args env cli) tmp native) output;
     Rmtree tmp true]
  /\ (main env cli fuel initial).2
     = (if seal_fails env then Raised BuildError else Returned None)
  /\ entries (configured env (parse_args env cli) tmp native) = []
  /\ chroot (configured env (parse_args env cli) tmp native) = ∅.
Proof.
  intros Hargs Hm Htmp Hnative Hmod Hres.
  assert (Htry : main_try env (parse_args env cli) output m tmp fuel (entered initial tmp)
                 = build env (configured env (parse_args env cli) tmp native) output
                     (log (entered initial tmp)
                        [FromBinary (options_python (parse_args env cli));
                         NewPEXBuilder tmp
                           (custom_interpreter env (parse_args env cli) native)])).
  { rewrite main_try_unfold, Hnative, Hmod. cbv beta iota zeta.
    unfold bind at 1. simpl add_all. unfold ret at 1.
    unfold bind at 1. rewrite Hres. unfold getitem, ret at 1.
    unfold bind at 1. simpl add_all. reflexivity. }
  rewrite (main_unfold env cli fuel output initial Hargs), Hm, Htmp, Htry, build_run.
  destruct (seal_fails env); now split_and!.
Qed.

Lemma main_empty_manifest_witness :
  trace (main (env_with (Some empty_manifest) false false) (cli_of ["out.pex"]) 0 initial).1
  = [JsonLoad; Mkdtemp;
     FromBinary (options_python (parse_args (env_with (Some empty_manifest) false false)
                                   (cli_of ["out.pex"])));
     NewPEXBuilder "/tmp/tmpAb12"
       (custom_interpreter (env_with (Some empty_manifest) false false)
          (parse_args (env_with (Some empty_manifest) false false) (cli_of ["out.pex"]))
          (native_python "/usr/bin/python"));
     Build (configured (env_with (Some empty_manifest) false false)
              (parse_args (env_with (Some empty_manifest) false false) (cli_of ["out.pex"]))
              "/tmp/tmpAb12" (native_python "/usr/bin/python")) "out.pex";
     Rmtree "/tmp/tmpAb12" true]
  /\ (main (env_with (Some empty_manifest) false false) (cli_of ["out.pex"]) 0 initial).2
     = (if seal_fails (env_with (Some empty_manifest) false false)
        then Raised BuildError else Returned None)
  /\ entries (configured (env_with (Some empty_manifest) false false)
                (parse_args (env_with (Some empty_manifest) false false)
                   (cli_of ["out.pex"]))
                "/tmp/tmpAb12" (native_python "/usr/bin/python")) = []
  /\ chroot (configured (env_with (Some empty_manifest) false false)
               (parse_args (env_with (Some empty_manifest) false false) (cli_of ["out.pex"]))
               "/tmp/tmpAb12" (native_python "/usr/bin/python")) = ∅.
Proof.
  apply (main_empty_manifest (env_with (Some empty_manifest) false false)
           (cli_of ["out.pex"]) 0 "out.pex" "/tmp/tmpAb12" empty_manifest
           (native_python "/usr/bin/python")); reflexivity.
Defined.

(** * The whole of [main()], from the command line *)

Lemma main_argv_help (env : Env) (argv : list string) (fuel : nat) (s : State) :
  optparse_args argv = OptHelp ->
  main_argv env argv fuel s = (s, Raised (SystemExit 0)).
Proof. unfold main_argv. now intros ->. Qed.

Lemma main_argv_error (env : Env) (argv : list string) (fuel : nat) (s : State) msg :
  optparse_args argv = OptError msg ->
  main_argv env argv fuel s = (log s [ParserError msg], Raised (SystemExit 2)).
Proof. unfold main_argv. now intros ->. Qed.

Lemma main_argv_values (env : Env) (argv : list string) (fuel : nat) (s : State) cli :
  optparse_args argv = OptValues cli ->
  main_argv env argv fuel s = main env cli fuel s.
Proof. unfold main_argv. now intros ->. Qed.

(** C5 fails on the code as stated: with [--help] and no positional
    argument, or with [-h] and two positional arguments, [parse_args]
    prints the help and the process exits with status 0, and no usage error
    is reported. *)
Lemma help_exits_zero_without_usage_error :
  main_argv sample_env ["--help"] 0 initial = (initial, Raised (SystemExit 0))
  /\ exit_status (main_argv sample_env ["--help"] 0 initial).2 = Some 0%Z
  /\ main_argv sample_env ["-h"; "a.pex"; "b.pex"] 0 initial
     = (initial, Raised (SystemExit 0))
  /\ exit_status (main_argv sample_env ["-h"; "a.pex"; "b.pex"] 0 initial).2 = Some 0%Z.
Proof. now split_and!. Qed.

(** C5, amended: for every command line on which [parse_args] does not
    return exactly one positional argument, no scratch directory is
    created, the manifest is not read and nothing is built or written; and
    unless [parse_args] has met [-h] or [--help], in which case the process
    exits with status 0 and no usage error, a usage error is reported
    through [parser.error] and the process exits with status 2: the error
    of [parse_args] for an option it rejects, or that of [main] when the
    positional [output] is absent or more than one is given. *)
Theorem main_argv_usage_error (env : Env) (argv : list string) (fuel : nat) :
  (forall cli, optparse_args argv = OptValues cli -> length (args cli) <> 1) ->
  scratch_dirs (main_argv env argv fuel initial).1 = ∅
  /\ written (main_argv env argv fuel initial).1 = ∅
  /\ (JsonLoad ∉ trace (main_argv env argv fuel initial).1)
  /\ (Mkdtemp ∉ trace (main_argv env argv fuel initial).1)
  /\ (forall b output, Build b output ∉ trace (main_argv env argv fuel initial).1)
  /\ (optparse_args argv = OptHelp ->
      main_argv env argv fuel initial = (initial, Raised (SystemExit 0))
      /\ exit_status (main_argv env argv fuel initial).2 = Some 0%Z)
  /\ (optparse_args argv <> OptHelp ->
      exists msg,
        main_argv env argv fuel initial
        = ({| trace := [ParserError msg]; scratch_dirs := ∅; written := ∅ |},
           Raised (SystemExit 2))
        /\ exit_status (main_argv env argv fuel initial).2 = Some 2%Z
        /\ (forall cli, optparse_args argv = OptValues cli -> msg = usage_message)).
Proof.
  intros Hcount. destruct (optparse_args argv) as [|msg|cli] eqn:Hparse.
  - rewrite (main_argv_help env argv fuel initial Hparse). simpl.
    split_and!; try done; try (intros Hin; inversion Hin; fail).
    intros b output Hin. inversion Hin.
  - rewrite (main_argv_error env argv fuel initial msg Hparse). simpl.
    split_and!; try done.
    + intros Hin. apply list_elem_of_singleton in Hin. discriminate.
    + intros Hin. apply list_elem_of_singleton in Hin. discriminate.
    + intros b output Hin. apply list_elem_of_singleton in Hin. discriminate.
    + intros _. exists msg. split_and!; done.
  - rewrite (main_argv_values env argv fuel initial cli Hparse).
    rewrite (main_usage env cli fuel initial (Hcount cli eq_refl)). simpl.
    split_and!; try done.
    + intros Hin. apply list_elem_of_singleton in Hin. discriminate.
    + intros Hin. apply list_elem_of_singleton in Hin. discriminate.
    + intros b output Hin. apply list_elem_of_singleton in Hin. discriminate.
    + intros _. exists usage_message. split_and!; done.
Qed.

Lemma main_argv_usage_error_witness :
  scratch_dirs (main_argv sample_env ["a.pex"; "--python=/usr/bin/pypy"; "b.pex"] 0 initial).1
  = ∅
  /\ written (main_argv sample_env ["a.pex"; "--python=/usr/bin/pypy"; "b.pex"] 0 initial).1
     = ∅
  /\ (JsonLoad
      ∉ trace (main_argv sample_env ["a.pex"; "--python=/usr/bin/pypy"; "b.pex"] 0 initial).1)
  /\ (Mkdtemp
      ∉ trace (main_argv sample_env ["a.pex"; "--python=/usr/bin/pypy"; "b.pex"] 0 initial).1)
  /\ (forall b output,
        Build b output
        ∉ trace (main_argv sample_env ["a.pex"; "--python=/usr/bin/pypy"; "b.pex"] 0
                   initial).1)
  /\ (optparse_args ["a.pex"; "--python=/usr/bin/pypy"; "b.pex"] = OptHelp ->
      main_argv sample_env ["a.pex"; "--python=/usr/bin/pypy"; "b.pex"] 0 initial
      = (initial, Raised (SystemExit 0))
      /\ exit_status
           (main_argv sample_env ["a.pex"; "--python=/usr/bin/pypy"; "b.pex"] 0 initial).2
         = Some 0%Z)
  /\ (optparse_args ["a.pex"; "--python=/usr/bin/pypy"; "b.pex"] <> OptHelp ->
      exists msg,
        main_argv sample_env ["a.pex"; "--python=/usr/bin/pypy"; "b.pex"] 0 initial
        = ({| trace := [ParserError msg]; scratch_dirs := ∅; written := ∅ |},
           Raised (SystemExit 2))
        /\ exit_status
             (main_argv sample_env ["a.pex"; "--python=/usr/bin/pypy"; "b.pex"] 0 initial).2
           = Some 2%Z
        /\ (forall cli,
              optparse_args ["a.pex"; "--python=/usr/bin/pypy"; "b.pex"] = OptValues cli ->
              msg = usage_message)).
Proof.
  apply (main_argv_usage_error sample_env ["a.pex"; "--python=/usr/bin/pypy"; "b.pex"] 0).
  intros cli Hcli. vm_compute in Hcli. injection Hcli as <-. simpl. lia.
Defined.

(** After [parse_args] has returned, a usage error is the only call of the
    run it occurs in, and it is the one on the positional arguments. *)
Lemma parser_error_alone (env : Env) (cli : CommandLine) (fuel : nat) (msg : string) :
  ParserError msg ∈ trace (main env cli fuel initial).1 ->
  trace (main env cli fuel initial).1 = [ParserError msg]
  /\ msg = usage_message /\ length (args cli) <> 1.
Proof.
  destruct (main env cli fuel initial) as [s' r] eqn:Hrun. simpl.
  apply main_shape in Hrun as [(Hlen & Htrace & _) | (output & _ & Hcases)].
  { rewrite Htrace. intros Hin. apply list_elem_of_singleton in Hin.
    injection Hin as ->. now split_and!. }
  destruct Hcases as [(_ & Htrace & _) | [(_ & Htrace & _) | Hfull]].
  { rewrite Htrace. intros Hin. apply list_elem_of_singleton in Hin. discriminate. }
  { rewrite Htrace, !elem_of_cons. intros [Hin | [Hin | Hin]]; try discriminate.
    inversion Hin. }
  destruct Hfull as (m & tmp & pre & evs1 & evs2 & post & rm & _ & _ & Htrace & Hpre
                     & Hevs1 & Hevs2 & Hpost & _ & _ & Hr).
  rewrite Htrace, !elem_of_app, !elem_of_cons. rewrite Forall_forall in Hevs1, Hevs2.
  intros [[Hin | [Hin | Hin]] | [Hin | [Hin | [Hin | [Hin | Hin]]]]]; try discriminate.
  - inversion Hin.
  - destruct Hpre as [-> | [native ->]].
    + apply list_elem_of_singleton in Hin. discriminate.
    + apply elem_of_cons in Hin as [Hin | Hin]; [discriminate|].
      apply list_elem_of_singleton in Hin. discriminate.
  - destruct (Hevs1 _ Hin) as (src & dst & Heq). discriminate.
  - destruct (Hevs2 _ Hin) as (src & dst & Heq). discriminate.
  - destruct Hpost as [-> | [b ->]]; [inversion Hin|].
    apply list_elem_of_singleton in Hin. discriminate.
  - destruct r as [v|e|]; [destruct Hr as (_ & _ & ->) | destruct Hr as (_ & ->)
                          | destruct Hr as (_ & ->)];
      [apply list_elem_of_singleton in Hin; discriminate
      | apply list_elem_of_singleton in Hin; discriminate | inversion Hin].
Qed.

(** X7: in every run of [main()], whatever the command line and the
    outcome, the calls come in the order of the pipeline: the reading of
    the manifest, the creation of the scratch directory, the
    introspection, the creation of the builder, the registrations of
    modules, then those of resources, the build, the removal, each at most
    once but for the registrations; and a usage error, that of
    [parse_args] or that of [main], is the only call of its run. *)
Theorem main_argv_calls_in_order (env : Env) (argv : list string) (fuel : nat) :
  StronglySorted precedes (trace (main_argv env argv fuel initial).1)
  /\ (forall msg, ParserError msg ∈ trace (main_argv env argv fuel initial).1 ->
                  trace (main_argv env argv fuel initial).1 = [ParserError msg])
  /\ (optparse_args argv = OptHelp -> trace (main_argv env argv fuel initial).1 = []).
Proof.
  destruct (optparse_args argv) as [|msg|cli] eqn:Hparse.
  - rewrite (main_argv_help env argv fuel initial Hparse). simpl.
    split_and!; [constructor | intros msg Hin; inversion Hin | done].
  - rewrite (main_argv_error env argv fuel initial msg Hparse). simpl.
    split_and!; [listed | | discriminate].
    intros msg' Hin. apply list_elem_of_singleton in Hin. now injection Hin as ->.
  - rewrite (main_argv_values env argv fuel initial cli Hparse).
    split_and!; [apply main_calls_in_order | | discriminate].
    intros msg Hin. now apply parser_error_alone in Hin as (Htrace & _).
Qed.

(** X12: the status of [sys.exit(main())], for every command line: it is
    0 exactly when [parse_args] printed the help or [main] returns, and in
    the second case [build] was called and returned, followed by the
    removal; it is 2 exactly when a usage error is reported, by
    [parse_args] for an option it rejects or by [main] when the number of
    positional arguments is not one; any other exit has status 1; and
    there is none exactly when [main] does not leave a loop. *)
Theorem main_argv_exit_status (env : Env) (argv : list string) (fuel : nat) :
  (exit_status (main_argv env argv fuel initial).2 = Some 0%Z
   <-> optparse_args argv = OptHelp \/ (main_argv env argv fuel initial).2 = Returned None)
  /\ (exit_status (main_argv env argv fuel initial).2 = Some 2%Z
      <-> (exists msg, optparse_args argv = OptError msg)
          \/ (exists cli, optparse_args argv = OptValues cli /\ length (args cli) <> 1))
  /\ (exit_status (main_argv env argv fuel initial).2 = Some 2%Z
      <-> exists msg, trace (main_argv env argv fuel initial).1 = [ParserError msg])
  /\ (exit_status (main_argv env argv fuel initial).2 = None
      <-> (main_argv env argv fuel initial).2 = Looping)
  /\ (forall n, exit_status (main_argv env argv fuel initial).2 = Some n ->
                n = 0%Z \/ n = 1%Z \/ n = 2%Z)
  /\ ((main_argv env argv fuel initial).2 = Returned None ->
      exists cli calls b output tmp,
        optparse_args argv = OptValues cli /\ args cli = [output]
        /\ trace (main_argv env argv fuel initial).1
           = calls ++ [Build b output; Rmtree tmp true]).
Proof.
  destruct (optparse_args argv) as [|msg|cli] eqn:Hparse.
  - rewrite (main_argv_help env argv fuel initial Hparse). simpl.
    split_and!; try (split; (done || discriminate)); try discriminate.
    + split; [tauto | now intros _].
    + split; [discriminate | intros [[msg H] | (cli & H & _)]; discriminate].
    + split; [discriminate | intros [msg H]; discriminate].
    + intros n [= <-]. tauto.
  - rewrite (main_argv_error env argv fuel initial msg Hparse). simpl.
    split_and!; try (split; (done || discriminate)); try discriminate.
    + split; [discriminate | intros [H | H]; discriminate].
    + split; [intros _; left; now exists msg | done].
    + split; [intros _; now exists msg | done].
    + intros n [= <-]. tauto.
  - rewrite (main_argv_values env argv fuel initial cli Hparse).
    destruct (main_exit_status env cli fuel) as (H0 & H2 & Hnone & Hn & Hret).
    split_and!.
    + rewrite H0. split; [now right | now intros [H | H]].
    + rewrite H2. split.
      * intros Hlen. right. now exists cli.
      * intros [[msg H] | (cli' & [= <-] & Hlen)]; [discriminate | exact Hlen].
    + rewrite H2. split.
      * intros Hlen. exists usage_message.
        now rewrite (main_usage env cli fuel initial Hlen).
      * intros [msg Htrace].
        assert (Hin : ParserError msg ∈ trace (main env cli fuel initial).1)
          by (rewrite Htrace; now apply list_elem_of_singleton).
        now apply parser_error_alone in Hin as (_ & _ & Hlen).
    + exact Hnone.
    + exact Hn.
    + intros Hr. destruct (Hret Hr) as (calls & b & output & tmp & Hargs & Htrace).
      now exists cli, calls, b, output, tmp.
Qed.
